(** * wpokt-monitor: the wallet gate and the mint panel

  A shallow embedding of the two components of the dashboard,
  [src/components/WagmiWrapper.tsx] and [src/components/MintPanel.tsx],
  and the properties of the connection gate and its network prompt, of
  the rows of the mint table (the actionability flags, the Action cell)
  and of the [mintTokens] callback over all its runs.

  JavaScript values are modelled by what the components observe of them:
  [undefined]/[null] as [None], a [bigint] as [Z], a string as [string],
  a thrown exception as [Throw], a promise by the way it settles. *)

From Stdlib Require Import ZArith String Ascii List Lia.
From stdpp Require Import base option list strings gmap.

Local Open Scope string_scope.
Local Open Scope Z_scope.

(** ** The JavaScript fragment the components rely on *)

Module JS.

Inductive JsError : Type :=
| TypeError (msg : string)
| SyntaxError (msg : string)
| Error (msg : string).

(** The completion of an expression: a value, or a thrown exception. *)
Inductive Completion (A : Type) : Type :=
| Normal (a : A)
| Throw (e : JsError).
Arguments Normal {A} a.
Arguments Throw {A} e.

#[global] Instance Completion_ret : MRet Completion := @Normal.
#[global] Instance Completion_bind : MBind Completion :=
  fun A B k c => match c with Normal a => k a | Throw e => Throw e end.

(** [ToBoolean] on the three kinds of value the components test: an
    object or an array is truthy whenever it is there, a string is falsy
    when empty, a bigint is falsy when it is [0n]. The [narrow_] versions
    give the value in the branch where the test succeeded. *)
Definition truthy_object {A : Type} (v : option A) : bool :=
  match v with Some _ => true | None => false end.

Definition narrow_string (v : option string) : option string :=
  match v with
  | Some s => if String.eqb s "" then None else Some s
  | None => None
  end.

Definition truthy_string (v : option string) : bool :=
  truthy_object (narrow_string v).

Definition narrow_bigint (v : option Z) : option Z :=
  match v with
  | Some n => if n =? 0 then None else Some n
  | None => None
  end.

Definition truthy_bigint (v : option Z) : bool :=
  truthy_object (narrow_bigint v).

(** [String.prototype.toLowerCase], on the ASCII letters (the keys are
    hexadecimal addresses); other characters are kept. *)
Definition lower_ascii (c : ascii) : ascii :=
  let n := nat_of_ascii c in
  if (Nat.leb 65 n && Nat.leb n 90)%bool then ascii_of_nat (n + 32) else c.

Fixpoint toLowerCase (s : string) : string :=
  match s with
  | EmptyString => EmptyString
  | String c r => String (lower_ascii c) (toLowerCase r)
  end.

(** How an awaited promise settles. [NeverSettles] is the promise that
    is neither fulfilled nor rejected: the [await] does not come back. *)
Inductive Settled (A : Type) : Type :=
| Fulfilled (a : A)
| Rejected (e : JsError)
| NeverSettles.
Arguments Fulfilled {A} a.
Arguments Rejected {A} e.
Arguments NeverSettles {A}.

(** [BigInt(s)] on a string of decimal digits, the form the nonces
    have. The panel itself is stated over any [BigInt] (a variable of the
    section below); this one serves the sample rows. *)
Definition digit_of_ascii (c : ascii) : option Z :=
  let n := nat_of_ascii c in
  if (Nat.leb 48 n && Nat.leb n 57)%bool then Some (Z.of_nat (n - 48)) else None.

Fixpoint parse_digits (acc : Z) (s : string) : Completion Z :=
  match s with
  | EmptyString => Normal acc
  | String c r =>
      match digit_of_ascii c with
      | Some d => parse_digits (10 * acc + d) r
      | None => Throw (SyntaxError "Cannot convert to a BigInt")
      end
  end.

Definition BigInt_decimal (s : string) : Completion Z := parse_digits 0 s.

End JS.
Import JS.

(** ** Records shared by the two components *)

(** A connected chain, as [useNetwork] of wagmi reports it. *)
Record Chain : Type := { id : Z; name : string }.

Module Mint.

(** Modelled from the spec: the [Mint] record of [@/types], which is not
    among the sources. The fields are the ones [MintPanel.tsx] reads, with
    the types its uses of them ask for: [nonce] is text handed to [BigInt]
    and tested for truthiness (unset when [undefined], [null] or empty);
    [status] is compared with string literals; [data] and [signatures]
    may be missing ([null]/[undefined]); [signatures] is an array. The
    payload type of [data] is left open. *)
Record t (MintData : Type) : Type := {
  _id : string;
  transaction_hash : string;
  height : string;
  confirmations : string;
  sender_address : string;
  sender_chain_id : string;
  recipient_address : string;
  recipient_chain_id : string;
  amount : string;
  nonce : option string;
  created_at : string;
  status : string;
  data : option MintData;
  signatures : option (list string);
  mint_tx_hash : option string
}.

End Mint.

Arguments Mint._id {MintData} _.
Arguments Mint.recipient_address {MintData} _.
Arguments Mint.nonce {MintData} _.
Arguments Mint.status {MintData} _.
Arguments Mint.data {MintData} _.
Arguments Mint.signatures {MintData} _.
Arguments Mint.amount {MintData} _.
Arguments Mint.confirmations {MintData} _.
Arguments Mint.created_at {MintData} _.
Arguments Mint.mint_tx_hash {MintData} _.

(** ** What the panel shows and does, as data *)

Inductive ToastStatus : Type := error | loading | success.

(** The [description] of a toast: plain text, or the sentence with the
    Etherscan link to the transaction. *)
Inductive Description : Type :=
| Plain (text : string)
| ViewOnEtherscan (href : string).

Record ToastOptions : Type := {
  title : string;
  description : option Description;
  toast_status : ToastStatus;
  duration : option Z;
  isClosable : bool
}.

(** The [useState] cells of [MintPanel]. *)
Record PanelState : Type := {
  refreshCount : Z;
  isLoading : bool;
  currentMintId : option string
}.

(** The cell of the Action column. *)
Record ButtonProps : Type := {
  tooltip : string;
  button_isLoading : bool;
  isDisabled : bool
}.

Inductive ActionCell : Type :=
| MintButton (props : ButtonProps)
| NotAvailable.

Record Row : Type := {
  row_isMintNotReady : bool;
  row_isMintCompleted : bool;
  row_action : ActionCell
}.

(** The button is there and its [isDisabled] prop is false. *)
Definition action_enabled (cell : ActionCell) : bool :=
  match cell with
  | MintButton props => negb (isDisabled props)
  | NotAvailable => false
  end.

(** The button can be pressed: it is there, its [isDisabled] prop is
    false and its [isLoading] prop is false (a button that shows the
    spinner takes no click). *)
Definition can_be_pressed (cell : ActionCell) : bool :=
  match cell with
  | MintButton props => negb (isDisabled props) && negb (button_isLoading props)
  | NotAvailable => false
  end.

Section Dashboard.

(** What the sources import from files that are not among them. *)
Variable DEFAULT_CHAIN : Chain.
Context {MintData Abi : Type}.
Variable MINT_CONTROLLER_ABI : Abi.
Variable MINT_CONTROLLER_ADDRESS : string.

(** The builtin [BigInt] applied to a string: the integer the text
    denotes, or the [SyntaxError] it throws. *)
Variable BigInt : string -> Completion Z.

Abbreviation Mint := (Mint.t MintData).

(** *** [WagmiWrapper.tsx] *)

(** [!!chain && chain.id !== DEFAULT_CHAIN.id]; [chain] is [undefined]
    while no chain is connected. *)
Definition isInvalidNetwork (chain : option Chain) : bool :=
  match chain with
  | Some c => negb (id c =? id DEFAULT_CHAIN)
  | None => false
  end.

Inductive View : Type :=
| PleaseConnect
| InvalidNetwork
| Children.

Definition WagmiConnectionManager
    (chain : option Chain) (address : option string) : View :=
  if negb (truthy_string address) then PleaseConnect
  else if isInvalidNetwork chain then InvalidNetwork
  else Children.

(** *** [MintPanel.tsx]: the rows *)

(** [nonce ? !mint.nonce || BigInt(mint.nonce) > nonce + BigInt(1) : true] *)
Definition isMintNotReady (nonce : option Z) (mint : Mint) : Completion bool :=
  match narrow_bigint nonce with
  | Some nonce =>
      match narrow_string (Mint.nonce mint) with
      | None => Normal true
      | Some text => m ← BigInt text; Normal (m >? nonce + 1)
      end
  | None => Normal true
  end.

(** [nonce ? !!mint.nonce && BigInt(mint.nonce) <= nonce : true] *)
Definition isMintCompleted (nonce : option Z) (mint : Mint) : Completion bool :=
  match narrow_bigint nonce with
  | Some nonce =>
      match narrow_string (Mint.nonce mint) with
      | None => Normal false
      | Some text => m ← BigInt text; Normal (m <=? nonce)
      end
  | None => Normal true
  end.

(** [mint.signatures.length >= 2]; reading [length] of a missing array
    throws. *)
Definition enough_signatures (mint : Mint) : Completion bool :=
  match Mint.signatures mint with
  | Some sigs => Normal (2 <=? Z.of_nat (length sigs))
  | None => Throw (TypeError "Cannot read properties of null (reading 'length')")
  end.

(** The test of the Action cell:
    [!!nonce && (status === 'signed' ||
                 (status === 'confirmed' && signatures.length >= 2))] *)
Definition shows_button (nonce : option Z) (mint : Mint) : Completion bool :=
  if truthy_bigint nonce then
    if String.eqb (Mint.status mint) "signed" then Normal true
    else if String.eqb (Mint.status mint) "confirmed" then enough_signatures mint
    else Normal false
  else Normal false.

(** [isLoading && mint._id.toString() === currentMintId] *)
Definition is_current (st : PanelState) (mint : Mint) : bool :=
  isLoading st &&
  match currentMintId st with
  | Some current => String.eqb (Mint._id mint) current
  | None => false
  end.

(** The body of [mints.map(mint => ...)], lines 218-305, as far as the
    two flags and the Action cell go. The cells between them are left to
    [render_table_row] below: of these the Amount cell (line 244) and the
    date cell (line 248) can throw, and they are evaluated after the
    flags and before the Action cell. *)
Definition render_row
    (st : PanelState) (nonceMap : gmap string Z) (mint : Mint) : Completion Row :=
  let nonce := nonceMap !! toLowerCase (Mint.recipient_address mint) in
  notReady ← isMintNotReady nonce mint;
  completed ← isMintCompleted nonce mint;
  button ← shows_button nonce mint;
  Normal {|
    row_isMintNotReady := notReady;
    row_isMintCompleted := completed;
    row_action :=
      if (button : bool) then
        MintButton {|
          tooltip :=
            if notReady then "Please complete previous mints first"
            else if completed then
              "Mint completed, please wait for validators to mark it as complete"
            else "";
          button_isLoading := is_current st mint;
          isDisabled := notReady || completed
        |}
      else NotAvailable
  |}.

(** *** [MintPanel.tsx]: the [mintTokens] callback *)

(** The argument of [walletClient.writeContract]. *)
Record WriteContractParameters : Type := {
  account : string;
  address : string;
  abi : Abi;
  functionName : string;
  args : MintData * list string
}.

(** The two clients answer a call with a promise; what is known of the
    promise is how it settles. *)
Record WalletClient : Type := {
  writeContract : WriteContractParameters -> Settled string
}.

Record PublicClient : Type := {
  waitForTransactionReceipt : string -> Settled unit
}.

(** What the wagmi hooks hand to the callback ([useAccount],
    [useWalletClient], [usePublicClient]); each may be [undefined]. *)
Record Hooks : Type := {
  account_address : option string;
  walletClient : option WalletClient;
  publicClient : option PublicClient
}.

(** Every call the panel makes to the outside, and every state setter. *)
Inductive Event : Type :=
| Toast (options : ToastOptions)
| ToastCloseAll
| WriteContract (params : WriteContractParameters)
| WaitForTransactionReceipt (hash : string)
| ConsoleError (e : JsError)
| SetIsLoading (b : bool)
| SetCurrentMintId (v : option string)
| Refresh
| Reload.

(** A run of an [async] function: the calls made so far, in order, and
    the outcome: [Some (Normal v)] returned, [Some (Throw e)] rejected,
    [None] still waiting on a promise that never settles. *)
Record Async (A : Type) : Type := {
  trace : list Event;
  outcome : option (Completion A)
}.
Arguments trace {A} _.
Arguments outcome {A} _.

#[global] Instance Async_ret : MRet Async :=
  fun A a => {| trace := []; outcome := Some (Normal a) |}.

#[global] Instance Async_bind : MBind Async :=
  fun A B k m =>
    match outcome m with
    | Some (Normal a) =>
        {| trace := trace m ++ trace (k a); outcome := outcome (k a) |}
    | Some (Throw e) => {| trace := trace m; outcome := Some (Throw e) |}
    | None => {| trace := trace m; outcome := None |}
    end.

(** A synchronous call that returns. *)
Definition call (ev : Event) : Async unit :=
  {| trace := [ev]; outcome := Some (Normal tt) |}.

(** [await] of the promise a call returned. *)
Definition await {A : Type} (ev : Event) (promise : Settled A) : Async A :=
  {| trace := [ev];
     outcome :=
       match promise with
       | Fulfilled a => Some (Normal a)
       | Rejected e => Some (Throw e)
       | NeverSettles => None
       end |}.

(** [try { body } catch (error) { handler } finally { cleanup }]. The
    handler runs when the body throws, the cleanup runs once control
    leaves the body or the handler, and nothing runs while the body is
    still waiting. *)
Definition finally {A : Type} (m : Async A) (cleanup : Async unit) : Async A :=
  match outcome m with
  | Some result =>
      {| trace := trace m ++ trace cleanup;
         outcome :=
           match outcome cleanup with
           | Some (Normal _) => Some result
           | Some (Throw e) => Some (Throw e)
           | None => None
           end |}
  | None => m
  end.

Definition catch {A : Type} (m : Async A) (handler : JsError -> Async A) : Async A :=
  match outcome m with
  | Some (Throw e) =>
      {| trace := trace m ++ trace (handler e); outcome := outcome (handler e) |}
  | _ => m
  end.

Definition try_catch_finally {A : Type}
    (body : Async A) (handler : JsError -> Async A) (cleanup : Async unit) : Async A :=
  finally (catch body handler) cleanup.

Definition toast_mint_not_ready : ToastOptions :=
  {| title := "Error";
     description := Some (Plain "Mint is not ready");
     toast_status := error;
     duration := Some 5000;
     isClosable := true |}.

Definition toast_transaction_sent (txHash : string) : ToastOptions :=
  {| title := "Transaction sent";
     description :=
       Some (ViewOnEtherscan (String.append "https://goerli.etherscan.io/tx/" txHash));
     toast_status := loading;
     duration := None;
     isClosable := false |}.

Definition toast_transaction_successful : ToastOptions :=
  {| title := "Transaction successful. You tokens are bridged!";
     description := None;
     toast_status := success;
     duration := Some 5000;
     isClosable := true |}.

Definition toast_error_minting : ToastOptions :=
  {| title := "Error";
     description := Some (Plain "Error minting tokens, please try again later");
     toast_status := error;
     duration := Some 5000;
     isClosable := true |}.

(** The request of lines 75-81. *)
Definition mint_request
    (account_address : string) (mint_data : MintData)
    (mint_signatures : list string) : WriteContractParameters :=
  {| account := account_address;
     address := MINT_CONTROLLER_ADDRESS;
     abi := MINT_CONTROLLER_ABI;
     functionName := "mintWrappedPocket";
     args := (mint_data, mint_signatures) |}.

(** Lines 72-124: the [try]/[catch]/[finally] statement, entered with the
    narrowed values in hand. *)
Definition submit
    (mint : Mint) (mint_data : MintData) (mint_signatures : list string)
    (account_address : string) (walletClient : WalletClient)
    (publicClient : PublicClient) : Async unit :=
  try_catch_finally
    (call (SetIsLoading true);;
     call (SetCurrentMintId (Some (Mint._id mint)));;
     let request := mint_request account_address mint_data mint_signatures in
     txHash ← await (WriteContract request) (writeContract walletClient request);
     call ToastCloseAll;;
     call (Toast (toast_transaction_sent txHash));;
     await (WaitForTransactionReceipt txHash)
           (waitForTransactionReceipt publicClient txHash);;
     call ToastCloseAll;;
     call (Toast toast_transaction_successful);;
     call Refresh)
    (fun error =>
     call ToastCloseAll;;
     call (ConsoleError error);;
     call (Toast toast_error_minting))
    (call (SetIsLoading false);;
     call (SetCurrentMintId None)).

(** [mintTokens], lines 59-125. *)
Definition mintTokens (hooks : Hooks) (mint : Mint) : Async unit :=
  match Mint.data mint, Mint.signatures mint with
  | Some mint_data, Some mint_signatures =>
      match narrow_string (account_address hooks),
            walletClient hooks, publicClient hooks with
      | Some account_address, Some walletClient, Some publicClient =>
          submit mint mint_data mint_signatures
                 account_address walletClient publicClient
      | _, _, _ => mret tt
      end
  | _, _ => call (Toast toast_mint_not_ready)
  end.

(** The Reload button under the table: [onClick={() => reload()}]. *)
Definition onReloadClick : Async unit := call Reload.

(** React applies the queued updates of the setters in the order of the
    calls; the other events leave the panel's own state alone. *)
Definition apply_event (st : PanelState) (ev : Event) : PanelState :=
  match ev with
  | SetIsLoading b =>
      {| refreshCount := refreshCount st; isLoading := b;
         currentMintId := currentMintId st |}
  | SetCurrentMintId v =>
      {| refreshCount := refreshCount st; isLoading := isLoading st;
         currentMintId := v |}
  | Refresh =>
      {| refreshCount := refreshCount st + 1; isLoading := isLoading st;
         currentMintId := currentMintId st |}
  | _ => st
  end.

Definition state_after {A : Type} (st : PanelState) (run : Async A) : PanelState :=
  fold_left apply_event (trace run) st.

(** Observations on a trace. *)
Definition is_write (ev : Event) : bool :=
  match ev with WriteContract _ => true | _ => false end.

Definition is_toast (ev : Event) : bool :=
  match ev with Toast _ => true | _ => false end.

Definition is_error_toast (ev : Event) : bool :=
  match ev with
  | Toast options =>
      match toast_status options with error => true | _ => false end
  | _ => false
  end.

Definition is_refresh (ev : Event) : bool :=
  match ev with Refresh => true | _ => false end.

Definition is_reload (ev : Event) : bool :=
  match ev with Reload => true | _ => false end.

(** The events that follow the wait for the receipt. *)
Fixpoint after_receipt (events : list Event) : list Event :=
  match events with
  | [] => []
  | WaitForTransactionReceipt _ :: rest => rest
  | _ :: rest => after_receipt rest
  end.

Definition count (p : Event -> bool) (events : list Event) : nat :=
  length (List.filter p events).

(** The invocation ran to its end (returned or threw) rather than
    staying on an [await]. *)
Definition completes {A : Type} (run : Async A) : bool :=
  truthy_object (outcome run).

(** *** [WagmiWrapper.tsx]: the prompt of [InvalidNetwork] *)

(** The one call the prompt makes to the wallet. *)
Inductive WalletCall : Type :=
| SwitchNetwork (chainId : Z).

(** [useSwitchNetwork()]: the pending flag, and whether [switchNetwork]
    is there (it is [undefined] for a connector that cannot switch). *)
Record SwitchNetworkHook : Type := {
  switch_isLoading : bool;
  has_switchNetwork : bool
}.

(** [() => switchNetwork?.(DEFAULT_CHAIN.id)], lines 13-16. *)
Definition onSwitch (hook : SwitchNetworkHook) : list WalletCall :=
  if has_switchNetwork hook then [SwitchNetwork (id DEFAULT_CHAIN)] else [].



(** *** [MintPanel.tsx]: the whole row *)

(** [formatUnits] of viem, and [humanFormattedDate(new Date(text))] with
    the helper of [@/utils/helpers], which is not among the sources and
    may throw on a date it cannot format. *)
Variable formatUnits : Z -> Z -> string.
Variable humanFormattedDate : string -> Completion string.

(** The cells of a row that are computed rather than copied from the
    mint. *)
Record TableRow : Type := {
  amount_cell : string;
  created_at_cell : string;
  status_tooltip : string;
  status_icon : bool;
  flags_and_action : Row;
  mint_tx_hash_cell : option string
}.

(** The label of the tooltip on the status, lines 253-257. *)
Definition pending_hint (mint : Mint) : string :=
  if String.eqb (Mint.status mint) "pending" then
    String.append "The transaction has "
      (String.append (Mint.confirmations mint)
         " confirmations out of a total of 1 required.")
  else "".

(** The Action cell from the values of the three tests, lines 272-294. *)
Definition action_cell
    (st : PanelState) (mint : Mint) (notReady completed button : bool) : ActionCell :=
  if button then
    MintButton {|
      tooltip :=
        if notReady then "Please complete previous mints first"
        else if completed then
          "Mint completed, please wait for validators to mark it as complete"
        else "";
      button_isLoading := is_current st mint;
      isDisabled := notReady || completed
    |}
  else NotAvailable.

(** The body of [mints.map(mint => ...)], lines 218-305, in the order
    JavaScript evaluates it: the lookup and the two flags, then the
    cells from left to right, among them [formatUnits(BigInt(mint.amount), 6)],
    the formatted date, the status with its hint, the Action cell and
    the hash of the mint transaction when there is one. *)
Definition render_table_row
    (st : PanelState) (nonceMap : gmap string Z) (mint : Mint) : Completion TableRow :=
  let nonce := nonceMap !! toLowerCase (Mint.recipient_address mint) in
  notReady ← isMintNotReady nonce mint;
  completed ← isMintCompleted nonce mint;
  amount ← BigInt (Mint.amount mint);
  created ← humanFormattedDate (Mint.created_at mint);
  button ← shows_button nonce mint;
  Normal {|
    amount_cell := formatUnits amount 6;
    created_at_cell := created;
    status_tooltip := pending_hint mint;
    status_icon := String.eqb (Mint.status mint) "pending";
    flags_and_action :=
      {| row_isMintNotReady := notReady;
         row_isMintCompleted := completed;
         row_action := action_cell st mint notReady completed button |};
    mint_tx_hash_cell := narrow_string (Mint.mint_tx_hash mint)
  |}.

(** *** [MintPanel.tsx]: the table *)

(** [mints.map(mint => ...)]: the rows in the order of the mints; the
    first row that throws ends the rendering. *)
Fixpoint render_rows
    (st : PanelState) (nonceMap : gmap string Z) (mints : list Mint) :
    Completion (list Row) :=
  match mints with
  | [] => Normal []
  | mint :: rest =>
      row ← render_row st nonceMap mint;
      rows ← render_rows st nonceMap rest;
      Normal (row :: rows)
  end.

(** [{!loading && (<VStack> ... <Tbody>{mints.map(...)}</Tbody> ...)}],
    lines 199-309: no table while [useAllMints] is loading. *)
Definition MintTable
    (loading : bool) (st : PanelState) (nonceMap : gmap string Z)
    (mints : list Mint) : Completion (option (list Row)) :=
  if negb loading then
    rows ← render_rows st nonceMap mints; Normal (Some rows)
  else Normal None.

(** The button of the row shows the spinner. *)
Definition shows_spinner (row : Row) : bool :=
  match row_action row with
  | MintButton props => button_isLoading props
  | NotAvailable => false
  end.

(** *** More observations on a trace *)

Definition is_wait (ev : Event) : bool :=
  match ev with WaitForTransactionReceipt _ => true | _ => false end.

Definition is_success_toast (ev : Event) : bool :=
  match ev with
  | Toast options =>
      match toast_status options with success => true | _ => false end
  | _ => false
  end.

(** The toasts put up and not yet closed by [toast.closeAll()], the
    oldest first (their expiry after [duration] is left aside). *)
Definition open_toasts (events : list Event) : list ToastOptions :=
  fold_left
    (fun (opened : list ToastOptions) ev =>
       match ev with
       | Toast options => (opened ++ [options])%list
       | ToastCloseAll => []
       | _ => opened
       end)
    events [].

(** *** The actionability check as the specification words it *)

(** The nonce a mint records: unset, or the integer its text denotes. *)
Definition recorded_nonce (mint : Mint) : Completion (option Z) :=
  match narrow_string (Mint.nonce mint) with
  | None => Normal None
  | Some text => m ← BigInt text; Normal (Some m)
  end.

(** "Not ready" if [n] is unknown, or if [m.nonce] is unset, or if
    [m.nonce > n + 1]. *)
Definition spec_not_ready (n recorded : option Z) : bool :=
  match n, recorded with
  | None, _ => true
  | Some _, None => true
  | Some n, Some m => m >? n + 1
  end.

(** "Completed" if [n] is known and [m.nonce] is set and [m.nonce <= n]. *)
Definition spec_completed (n recorded : option Z) : bool :=
  match n, recorded with
  | Some n, Some m => m <=? n
  | _, _ => false
  end.

(** The flags of the code agree with the two definitions above. *)
Definition flags_match_spec (n : option Z) (mint : Mint) : Prop :=
  forall recorded, recorded_nonce mint = Normal recorded ->
    isMintNotReady n mint = Normal (spec_not_ready n recorded) /\
    isMintCompleted n mint = Normal (spec_completed n recorded).

(** After a write and a wait that both succeed, [reload] is called
    exactly once. *)
Definition reload_called_once_after_success (hooks : Hooks) (mint : Mint) : Prop :=
  forall mint_data mint_signatures address wallet client txHash,
    Mint.data mint = Some mint_data ->
    Mint.signatures mint = Some mint_signatures ->
    narrow_string (account_address hooks) = Some address ->
    walletClient hooks = Some wallet ->
    publicClient hooks = Some client ->
    writeContract wallet (mint_request address mint_data mint_signatures) =
      Fulfilled txHash ->
    waitForTransactionReceipt client txHash = Fulfilled tt ->
    count is_reload (after_receipt (trace (mintTokens hooks mint))) = 1%nat.

End Dashboard.

Arguments trace {MintData Abi A} _.
Arguments outcome {MintData Abi A} _.

(** ** Sample data: a mint of the recipient [0xAbC1], a wallet, a receipt *)

Definition goerli : Chain := {| id := 5; name := "Goerli" |}.
Definition mainnet : Chain := {| id := 1; name := "Ethereum" |}.

Definition sample_mint
    (nonce : option string) (status : string)
    (data : option unit) (signatures : option (list string)) : Mint.t unit :=
  {| Mint._id := "64f0c0ffee";
     Mint.transaction_hash := "9A1B";
     Mint.height := "1200";
     Mint.confirmations := "1";
     Mint.sender_address := "92d75da9";
     Mint.sender_chain_id := "testnet";
     Mint.recipient_address := "0xAbC1";
     Mint.recipient_chain_id := "5";
     Mint.amount := "20000000";
     Mint.nonce := nonce;
     Mint.created_at := "2023-07-01T00:00:00Z";
     Mint.status := status;
     Mint.data := data;
     Mint.signatures := signatures;
     Mint.mint_tx_hash := None |}.

Definition signed_mint : Mint.t unit :=
  sample_mint (Some "3") "signed" (Some tt) (Some ["0x51"; "0x52"]).

Definition unsigned_mint : Mint.t unit :=
  sample_mint (Some "3") "pending" None None.

Definition idle : PanelState :=
  {| refreshCount := 0; isLoading := false; currentMintId := None |}.

Definition busy : PanelState :=
  {| refreshCount := 4; isLoading := true; currentMintId := Some "64f0c0ffee" |}.

Definition accepting_wallet : @WalletClient unit unit :=
  {| writeContract := fun _ => Fulfilled "0x7e57" |}.

Definition refusing_wallet : @WalletClient unit unit :=
  {| writeContract := fun _ => Rejected (Error "User rejected the request") |}.

Definition mined : PublicClient :=
  {| waitForTransactionReceipt := fun _ => Fulfilled tt |}.

Definition reverted : PublicClient :=
  {| waitForTransactionReceipt := fun _ => Rejected (Error "Transaction reverted") |}.

Definition connected (wallet : @WalletClient unit unit) (client : PublicClient) :
    @Hooks unit unit :=
  {| account_address := Some "0xAbC1";
     walletClient := Some wallet;
     publicClient := Some client |}.

Definition disconnected : @Hooks unit unit :=
  {| account_address := None; walletClient := None; publicClient := Some mined |}.

(** The nonce lookup of the sample recipient, keyed in lower case. *)
Definition nonces_of (n : Z) : gmap string Z := {[ "0xabc1" := n ]}.

(** A receipt that never comes. *)
Definition unmined : PublicClient :=
  {| waitForTransactionReceipt := fun _ => NeverSettles |}.

(** The callback on the sample data; the ABI is opaque to the panel. *)
Definition sample_mintTokens : @Hooks unit unit -> Mint.t unit -> Async unit :=
  mintTokens tt "0xC0117011e4".

(** More sample data: a wallet that can switch chains, mints that break
    a row, and a second mint of the same recipient. *)
Definition switching_hook : SwitchNetworkHook :=
  {| switch_isLoading := false; has_switchNetwork := true |}.

Definition malformed_mint : Mint.t unit :=
  sample_mint (Some "three") "signed" (Some tt) (Some ["0x51"; "0x52"]).

Definition confirmed_without_signatures : Mint.t unit :=
  sample_mint (Some "3") "confirmed" (Some tt) None.

Definition following_mint : Mint.t unit :=
  {| Mint._id := "64f0decade";
     Mint.transaction_hash := "9A1C";
     Mint.height := "1201";
     Mint.confirmations := "1";
     Mint.sender_address := "92d75da9";
     Mint.sender_chain_id := "testnet";
     Mint.recipient_address := "0xAbC1";
     Mint.recipient_chain_id := "5";
     Mint.amount := "5000000";
     Mint.nonce := Some "4";
     Mint.created_at := "2023-07-02T00:00:00Z";
     Mint.status := "confirmed";
     Mint.data := Some tt;
     Mint.signatures := Some ["0x61"; "0x62"; "0x63"];
     Mint.mint_tx_hash := None |}.

(** The text viem gives for 20000000 at six decimals, and a date helper
    that returns the text it is given. *)
Definition sample_formatUnits (value decimals : Z) : string := "20".

Definition sample_humanFormattedDate (text : string) : Completion string :=
  Normal text.

(** The next mint, as the idle panel shows it. *)
Definition idle_next_row : Row :=
  {| row_isMintNotReady := false;
     row_isMintCompleted := false;
     row_action :=
       MintButton {| tooltip := ""; button_isLoading := false;
                     isDisabled := false |} |}.

Definition next_row : Row :=
  {| row_isMintNotReady := false;
     row_isMintCompleted := false;
     row_action :=
       MintButton {| tooltip := ""; button_isLoading := true;
                     isDisabled := false |} |}.

Definition later_row : Row :=
  {| row_isMintNotReady := true;
     row_isMintCompleted := false;
     row_action :=
       MintButton {| tooltip := "Please complete previous mints first";
                     button_isLoading := false;
                     isDisabled := true |} |}.

(** ** Properties *)

Section Properties.

Context {MintData Abi : Type}.
Variable DEFAULT_CHAIN : Chain.
Variable MINT_CONTROLLER_ABI : Abi.
Variable MINT_CONTROLLER_ADDRESS : string.
Variable BigInt : string -> Completion Z.
Variable formatUnits : Z -> Z -> string.
Variable humanFormattedDate : string -> Completion string.

Abbreviation Mint := (Mint.t MintData).
Abbreviation WalletClient := (@WalletClient MintData Abi).
Abbreviation Hooks := (@Hooks MintData Abi).
Abbreviation mintTokens := (mintTokens MINT_CONTROLLER_ABI MINT_CONTROLLER_ADDRESS).
Abbreviation mint_request := (mint_request MINT_CONTROLLER_ABI MINT_CONTROLLER_ADDRESS).

(** *** The [try] statement of [mintTokens] *)

(** The four ways through the [try] statement, by the way the two
    promises settle. *)
Section Submit.

Variables (mint : Mint) (mint_data : MintData) (mint_signatures : list string).
Variables (account_address : string).
Variables (walletClient : WalletClient) (publicClient : PublicClient).

Let request := mint_request account_address mint_data mint_signatures.
Let run := submit MINT_CONTROLLER_ABI MINT_CONTROLLER_ADDRESS
             mint mint_data mint_signatures account_address walletClient publicClient.

Lemma submit_success (txHash : string) :
  writeContract walletClient request = Fulfilled txHash ->
  waitForTransactionReceipt publicClient txHash = Fulfilled tt ->
  run =
    {| trace :=
         [ SetIsLoading true; SetCurrentMintId (Some (Mint._id mint));
           WriteContract request;
           ToastCloseAll; Toast (toast_transaction_sent txHash);
           WaitForTransactionReceipt txHash;
           ToastCloseAll; Toast toast_transaction_successful;
           Refresh;
           SetIsLoading false; SetCurrentMintId None ];
       outcome := Some (Normal tt) |}.
Proof.
  intros Hwrite Hwait. subst run request. unfold submit.
  rewrite Hwrite. cbn. rewrite Hwait. reflexivity.
Qed.

Lemma submit_wait_fails (txHash : string) (e : JsError) :
  writeContract walletClient request = Fulfilled txHash ->
  waitForTransactionReceipt publicClient txHash = Rejected e ->
  run =
    {| trace :=
         [ SetIsLoading true; SetCurrentMintId (Some (Mint._id mint));
           WriteContract request;
           ToastCloseAll; Toast (toast_transaction_sent txHash);
           WaitForTransactionReceipt txHash;
           ToastCloseAll; ConsoleError e; Toast toast_error_minting;
           SetIsLoading false; SetCurrentMintId None ];
       outcome := Some (Normal tt) |}.
Proof.
  intros Hwrite Hwait. subst run request. unfold submit.
  rewrite Hwrite. cbn. rewrite Hwait. reflexivity.
Qed.

Lemma submit_write_fails (e : JsError) :
  writeContract walletClient request = Rejected e ->
  run =
    {| trace :=
         [ SetIsLoading true; SetCurrentMintId (Some (Mint._id mint));
           WriteContract request;
           ToastCloseAll; ConsoleError e; Toast toast_error_minting;
           SetIsLoading false; SetCurrentMintId None ];
       outcome := Some (Normal tt) |}.
Proof.
  intros Hwrite. subst run request. unfold submit.
  rewrite Hwrite. reflexivity.
Qed.

Lemma submit_write_pending :
  writeContract walletClient request = NeverSettles ->
  run =
    {| trace :=
         [ SetIsLoading true; SetCurrentMintId (Some (Mint._id mint));
           WriteContract request ];
       outcome := None |}.
Proof.
  intros Hwrite. subst run request. unfold submit.
  rewrite Hwrite. reflexivity.
Qed.

Lemma submit_wait_pending (txHash : string) :
  writeContract walletClient request = Fulfilled txHash ->
  waitForTransactionReceipt publicClient txHash = NeverSettles ->
  run =
    {| trace :=
         [ SetIsLoading true; SetCurrentMintId (Some (Mint._id mint));
           WriteContract request;
           ToastCloseAll; Toast (toast_transaction_sent txHash);
           WaitForTransactionReceipt txHash ];
       outcome := None |}.
Proof.
  intros Hwrite Hwait. subst run request. unfold submit.
  rewrite Hwrite. cbn. rewrite Hwait. reflexivity.
Qed.

(** The statement is left exactly when both promises settle. *)
Lemma submit_completes_iff :
  completes run = true <->
  (exists e, writeContract walletClient request = Rejected e) \/
  (exists txHash,
     writeContract walletClient request = Fulfilled txHash /\
     waitForTransactionReceipt publicClient txHash <> NeverSettles).
Proof.
  destruct (writeContract walletClient request) as [txHash|e|] eqn:Hwrite.
  - destruct (waitForTransactionReceipt publicClient txHash) as [[]|e|] eqn:Hwait.
    + rewrite (submit_success txHash Hwrite Hwait). split; [|reflexivity].
      intros _. right. exists txHash. split; [reflexivity|]. rewrite Hwait. discriminate.
    + rewrite (submit_wait_fails txHash e Hwrite Hwait). split; [|reflexivity].
      intros _. right. exists txHash. split; [reflexivity|]. rewrite Hwait. discriminate.
    + rewrite (submit_wait_pending txHash Hwrite Hwait). split; [discriminate|].
      intros [[e He]|(h & [= <-] & Hne)]; [discriminate|]. contradiction.
  - rewrite (submit_write_fails e Hwrite). split; [|reflexivity].
    intros _. left. exists e. reflexivity.
  - rewrite (submit_write_pending Hwrite). split; [discriminate|].
    intros [[e He]|(h & Heq & _)]; discriminate.
Qed.

(** Once the statement is left, the [finally] block has had the last word
    on the two markers. *)
Lemma submit_cleanup (st : PanelState) :
  completes run = true ->
  isLoading (state_after st run) = false /\
  currentMintId (state_after st run) = None.
Proof.
  destruct (writeContract walletClient request) as [txHash|e|] eqn:Hwrite.
  - destruct (waitForTransactionReceipt publicClient txHash) as [[]|e|] eqn:Hwait.
    + rewrite (submit_success txHash Hwrite Hwait). intros _. split; reflexivity.
    + rewrite (submit_wait_fails txHash e Hwrite Hwait). intros _. split; reflexivity.
    + rewrite (submit_wait_pending txHash Hwrite Hwait). discriminate.
  - rewrite (submit_write_fails e Hwrite). intros _. split; reflexivity.
  - rewrite (submit_write_pending Hwrite). discriminate.
Qed.

End Submit.

(** *** The network check *)

(** C4. The chain is an invalid network exactly when it is there and its
    identifier is not the one of [DEFAULT_CHAIN]. *)
Theorem isInvalidNetwork_iff (chain : option Chain) :
  isInvalidNetwork DEFAULT_CHAIN chain = true <->
  exists c, chain = Some c /\ id c <> id DEFAULT_CHAIN.
Proof.
  unfold isInvalidNetwork. destruct chain as [c|]; split.
  - intros H. exists c. split; [reflexivity|].
    apply negb_true_iff, Z.eqb_neq in H. exact H.
  - intros (c' & Heq & Hne). injection Heq as ->.
    apply negb_true_iff, Z.eqb_neq. exact Hne.
  - discriminate.
  - intros (c' & Heq & _). discriminate.
Qed.

(** The children are shown only on the required chain or with no chain. *)
Lemma children_only_on_valid_network chain address :
  WagmiConnectionManager DEFAULT_CHAIN chain address = Children ->
  isInvalidNetwork DEFAULT_CHAIN chain = false.
Proof.
  unfold WagmiConnectionManager.
  destruct (negb (truthy_string address)); [discriminate|].
  destruct (isInvalidNetwork DEFAULT_CHAIN chain); [discriminate|reflexivity].
Qed.

(** *** The rows *)

Lemma narrow_bigint_known (n : Z) :
  n <> 0 -> narrow_bigint (Some n) = Some n.
Proof.
  intros Hn. unfold narrow_bigint.
  destruct (Z.eqb_spec n 0) as [Heq|_]; [contradiction|reflexivity].
Qed.

Lemma narrow_bigint_zero : narrow_bigint (Some 0) = None.
Proof. reflexivity. Qed.

Lemma narrow_bigint_Some (nonce : option Z) (n : Z) :
  narrow_bigint nonce = Some n -> nonce = Some n /\ n <> 0.
Proof.
  unfold narrow_bigint. destruct nonce as [k|]; [|discriminate].
  destruct (Z.eqb_spec k 0) as [_|Hk]; [discriminate|].
  intros [= ->]. split; [reflexivity|exact Hk].
Qed.

(** With no usable nonce the flags are both raised, whatever the mint. *)
Lemma flags_without_nonce (nonce : option Z) (mint : Mint) :
  narrow_bigint nonce = None ->
  isMintNotReady BigInt nonce mint = Normal true /\
  isMintCompleted BigInt nonce mint = Normal true.
Proof.
  intros Hn. unfold isMintNotReady, isMintCompleted. rewrite Hn. split; reflexivity.
Qed.

(** With a nonce that is not zero the flags are the comparisons of §4. *)
Lemma flags_with_nonce (n : Z) (mint : Mint) (recorded : option Z) :
  n <> 0 ->
  recorded_nonce BigInt mint = Normal recorded ->
  isMintNotReady BigInt (Some n) mint = Normal (spec_not_ready (Some n) recorded) /\
  isMintCompleted BigInt (Some n) mint = Normal (spec_completed (Some n) recorded).
Proof.
  intros Hn. unfold recorded_nonce, isMintNotReady, isMintCompleted.
  rewrite (narrow_bigint_known n Hn).
  destruct (narrow_string (Mint.nonce mint)) as [text|].
  - destruct (BigInt text) as [m|e]; cbn; [|discriminate].
    intros [= <-]. split; reflexivity.
  - intros [= <-]. split; reflexivity.
Qed.

(** C1, amended. For an on-chain nonce that is unknown, or known and not
    zero, and a mint whose recorded nonce is unset or denotes an integer:
    the mint is "not ready" exactly when the nonce is unknown, or the
    recorded nonce is unset, or it is greater than the nonce plus one;
    it is "completed" exactly when the nonce is unknown, or the recorded
    nonce is set and at most the nonce. *)
Theorem actionability_flags (nonce : option Z) (mint : Mint) (recorded : option Z) :
  nonce <> Some 0 ->
  recorded_nonce BigInt mint = Normal recorded ->
  isMintNotReady BigInt nonce mint = Normal (spec_not_ready nonce recorded) /\
  isMintCompleted BigInt nonce mint =
    Normal (match nonce with
            | None => true
            | Some _ => spec_completed nonce recorded
            end).
Proof.
  intros Hz Hrec. destruct nonce as [n|].
  - apply flags_with_nonce; [congruence|exact Hrec].
  - apply flags_without_nonce. reflexivity.
Qed.

(** Both flags down: the recorded nonce is set and is the on-chain nonce
    plus one. *)
Lemma flags_down_next_mint (nonce : option Z) (mint : Mint) :
  isMintNotReady BigInt nonce mint = Normal false ->
  isMintCompleted BigInt nonce mint = Normal false ->
  exists n, nonce = Some n /\ n <> 0 /\
            recorded_nonce BigInt mint = Normal (Some (n + 1)).
Proof.
  unfold isMintNotReady, isMintCompleted, recorded_nonce.
  destruct (narrow_bigint nonce) as [n|] eqn:Hnonce; [|discriminate].
  apply narrow_bigint_Some in Hnonce as [Hn Hn0].
  destruct (narrow_string (Mint.nonce mint)) as [text|]; [|discriminate].
  destruct (BigInt text) as [m|e]; cbn; [|discriminate].
  intros [= Hgt] [= Hle].
  rewrite Z.gtb_ltb in Hgt. apply Z.ltb_ge in Hgt. apply Z.leb_gt in Hle.
  exists n. split; [exact Hn|]. split; [exact Hn0|].
  do 2 f_equal. lia.
Qed.

(** C3. A row whose button is there and not disabled has status
    "signed", or status "confirmed" with at least two signatures, and
    neither condition of the actionability check holds for it: its
    recipient's on-chain nonce [n] is known, its recorded nonce [m] is
    set, [m > n + 1] fails and [m <= n] fails. A button that can be
    pressed is in particular not disabled. *)
Theorem button_enabled_only_when
    (st : PanelState) (nonceMap : gmap string Z) (mint : Mint) (row : Row) :
  render_row BigInt st nonceMap mint = Normal row ->
  action_enabled (row_action row) = true ->
  let nonce := nonceMap !! toLowerCase (Mint.recipient_address mint) in
  (Mint.status mint = "signed" \/
   (Mint.status mint = "confirmed" /\
    exists sigs, Mint.signatures mint = Some sigs /\ (2 <= length sigs)%nat)) /\
  (exists n m,
     nonce = Some n /\
     recorded_nonce BigInt mint = Normal (Some m) /\
     ~ m > n + 1 /\
     ~ m <= n /\
     spec_not_ready (Some n) (Some m) = false /\
     spec_completed (Some n) (Some m) = false) /\
  isMintNotReady BigInt nonce mint = Normal false /\
  isMintCompleted BigInt nonce mint = Normal false.
Proof.
  intros Hrow Hen nonce. unfold render_row in Hrow. fold nonce in Hrow.
  destruct (isMintNotReady BigInt nonce mint) as [notReady|e] eqn:HnotReady;
    cbn in Hrow; [|discriminate].
  destruct (isMintCompleted BigInt nonce mint) as [done_|e] eqn:Hcompleted;
    cbn in Hrow; [|discriminate].
  destruct (shows_button nonce mint) as [button|e] eqn:Hshow; cbn in Hrow;
    [|discriminate].
  injection Hrow as <-. cbn in Hen.
  destruct button; cbn in Hen; [|discriminate].
  apply negb_true_iff, orb_false_iff in Hen. destruct Hen as [-> ->].
  split; [|split; [|split; reflexivity]].
  - unfold shows_button in Hshow.
    destruct (truthy_bigint nonce); [|discriminate].
    destruct (String.eqb_spec (Mint.status mint) "signed") as [Hs|_];
      [left; exact Hs|].
    destruct (String.eqb_spec (Mint.status mint) "confirmed") as [Hc|_];
      [|discriminate].
    right. split; [exact Hc|].
    unfold enough_signatures in Hshow.
    destruct (Mint.signatures mint) as [sigs|]; [|discriminate].
    exists sigs. split; [reflexivity|].
    injection Hshow as Hlen. apply Z.leb_le in Hlen. lia.
  - destruct (flags_down_next_mint nonce mint HnotReady Hcompleted)
      as (n & Hn & _ & Hrec).
    exists n, (n + 1). split; [exact Hn|]. split; [exact Hrec|].
    split; [lia|]. split; [lia|]. cbn. split.
    + rewrite Z.gtb_ltb. apply Z.ltb_irrefl.
    + apply Z.leb_gt. lia.
Qed.

(** C9. A row whose recipient has the on-chain nonce zero is rendered as
    a row whose recipient has no nonce at all: both flags raised, and
    "N/A" in place of the button. *)
Theorem zero_nonce_is_unknown
    (st : PanelState) (nonceMap : gmap string Z) (mint : Mint) :
  nonceMap !! toLowerCase (Mint.recipient_address mint) = Some 0 ->
  render_row BigInt st nonceMap mint =
    Normal {| row_isMintNotReady := true;
              row_isMintCompleted := true;
              row_action := NotAvailable |} /\
  render_row BigInt st nonceMap mint =
    render_row BigInt st
      (delete (toLowerCase (Mint.recipient_address mint)) nonceMap) mint.
Proof.
  intros Hzero. unfold render_row.
  rewrite lookup_delete_eq, Hzero. split; reflexivity.
Qed.

(** *** The [mintTokens] callback *)

(** C5. A mint without its data or without its signatures: the callback
    returns, [writeContract] is not called, and exactly one notification
    is shown, an error. *)
Theorem mintTokens_rejects_incomplete_mint (hooks : Hooks) (mint : Mint) :
  Mint.data mint = None \/ Mint.signatures mint = None ->
  completes (mintTokens hooks mint) = true /\
  count is_write (trace (mintTokens hooks mint)) = 0%nat /\
  count is_error_toast (trace (mintTokens hooks mint)) = 1%nat /\
  count is_toast (trace (mintTokens hooks mint)) = 1%nat.
Proof.
  intros Hmissing.
  assert (Hrun : mintTokens hooks mint = call (Toast toast_mint_not_ready)).
  { unfold mintTokens.
    destruct Hmissing as [-> | ->]; [reflexivity|].
    destruct (Mint.data mint); reflexivity. }
  rewrite Hrun. repeat split; reflexivity.
Qed.

(** C10. A complete mint, with the account address, the wallet client or
    the public client missing: the callback returns at once, having called
    nothing (no [writeContract], no notification) and set nothing. *)
Theorem mintTokens_silent_when_not_connected
    (hooks : Hooks) (mint : Mint) (st : PanelState)
    (mint_data : MintData) (mint_signatures : list string) :
  Mint.data mint = Some mint_data ->
  Mint.signatures mint = Some mint_signatures ->
  narrow_string (account_address hooks) = None \/ walletClient hooks = None \/
    publicClient hooks = None ->
  trace (mintTokens hooks mint) = [] /\
  outcome (mintTokens hooks mint) = Some (Normal tt) /\
  count is_write (trace (mintTokens hooks mint)) = 0%nat /\
  count is_toast (trace (mintTokens hooks mint)) = 0%nat /\
  isLoading (state_after st (mintTokens hooks mint)) = isLoading st /\
  currentMintId (state_after st (mintTokens hooks mint)) = currentMintId st.
Proof.
  intros Hdata Hsigs Hmissing.
  assert (Hrun : mintTokens hooks mint = mret tt).
  { unfold mintTokens. rewrite Hdata, Hsigs.
    destruct Hmissing as [-> | [-> | ->]].
    - reflexivity.
    - destruct (narrow_string (account_address hooks)); reflexivity.
    - destruct (narrow_string (account_address hooks)); [|reflexivity].
      destruct (walletClient hooks); reflexivity. }
  rewrite Hrun. repeat split; reflexivity.
Qed.

(** When nothing is missing the callback is the [try] statement. *)
Lemma mintTokens_submits
    (hooks : Hooks) (mint : Mint)
    (mint_data : MintData) (mint_signatures : list string)
    (address : string) (wallet : WalletClient) (client : PublicClient) :
  Mint.data mint = Some mint_data ->
  Mint.signatures mint = Some mint_signatures ->
  narrow_string (account_address hooks) = Some address ->
  walletClient hooks = Some wallet ->
  publicClient hooks = Some client ->
  mintTokens hooks mint =
    submit MINT_CONTROLLER_ABI MINT_CONTROLLER_ADDRESS
      mint mint_data mint_signatures address wallet client.
Proof.
  intros Hdata Hsigs Haddr Hwallet Hclient.
  unfold mintTokens.
  rewrite Hdata, Hsigs, Haddr, Hwallet, Hclient. reflexivity.
Qed.

(** The busy indicator is raised only inside the [try] statement. *)
Lemma mintTokens_enters_submission (hooks : Hooks) (mint : Mint) :
  In (SetIsLoading true) (trace (mintTokens hooks mint)) ->
  exists mint_data mint_signatures address wallet client,
    mintTokens hooks mint =
      submit MINT_CONTROLLER_ABI MINT_CONTROLLER_ADDRESS
        mint mint_data mint_signatures address wallet client.
Proof.
  unfold mintTokens.
  destruct (Mint.data mint) as [mint_data|];
    destruct (Mint.signatures mint) as [mint_signatures|];
    try (cbn; intros [Habs|[]]; discriminate).
  destruct (narrow_string (account_address hooks)) as [address|];
    destruct (walletClient hooks) as [wallet|];
    destruct (publicClient hooks) as [client|];
    try (cbn; intros []).
  intros _. exists mint_data, mint_signatures, address, wallet, client. reflexivity.
Qed.

(** C6. When the call to [writeContract] fails, the callback returns with
    the loading flag down and exactly one error notification shown. *)
Theorem mintTokens_write_failure
    (hooks : Hooks) (mint : Mint) (st : PanelState)
    (mint_data : MintData) (mint_signatures : list string)
    (address : string) (wallet : WalletClient) (client : PublicClient)
    (e : JsError) :
  Mint.data mint = Some mint_data ->
  Mint.signatures mint = Some mint_signatures ->
  narrow_string (account_address hooks) = Some address ->
  walletClient hooks = Some wallet ->
  publicClient hooks = Some client ->
  writeContract wallet (mint_request address mint_data mint_signatures) = Rejected e ->
  completes (mintTokens hooks mint) = true /\
  isLoading (state_after st (mintTokens hooks mint)) = false /\
  count is_error_toast (trace (mintTokens hooks mint)) = 1%nat /\
  count is_toast (trace (mintTokens hooks mint)) = 1%nat.
Proof.
  intros Hdata Hsigs Haddr Hwallet Hclient Hwrite.
  rewrite (mintTokens_submits hooks mint mint_data mint_signatures address wallet client)
    by assumption.
  rewrite (submit_write_fails mint mint_data mint_signatures address wallet client e Hwrite).
  repeat split; reflexivity.
Qed.

(** C7. An invocation that raised the busy indicator and came to its end,
    by success or by failure, leaves the loading flag down and no current
    mint. *)
Theorem mintTokens_clears_busy_markers
    (hooks : Hooks) (mint : Mint) (st : PanelState) :
  In (SetIsLoading true) (trace (mintTokens hooks mint)) ->
  completes (mintTokens hooks mint) = true ->
  isLoading (state_after st (mintTokens hooks mint)) = false /\
  currentMintId (state_after st (mintTokens hooks mint)) = None.
Proof.
  intros Henter Hdone.
  destruct (mintTokens_enters_submission hooks mint Henter)
    as (mint_data & mint_signatures & address & wallet & client & Hrun).
  rewrite Hrun in Hdone |- *.
  apply submit_cleanup. exact Hdone.
Qed.

(** C2, amended. After a write and a wait that both succeed, the callback
    calls the refresh of the nonce lookup ([refresh(c => c + 1)]) exactly
    once, after the wait, and does not call [reload]. *)
Theorem mintTokens_refreshes_once_after_success
    (hooks : Hooks) (mint : Mint) (st : PanelState)
    (mint_data : MintData) (mint_signatures : list string)
    (address : string) (wallet : WalletClient) (client : PublicClient)
    (txHash : string) :
  Mint.data mint = Some mint_data ->
  Mint.signatures mint = Some mint_signatures ->
  narrow_string (account_address hooks) = Some address ->
  walletClient hooks = Some wallet ->
  publicClient hooks = Some client ->
  writeContract wallet (mint_request address mint_data mint_signatures) =
    Fulfilled txHash ->
  waitForTransactionReceipt client txHash = Fulfilled tt ->
  count is_refresh (after_receipt (trace (mintTokens hooks mint))) = 1%nat /\
  count is_refresh (trace (mintTokens hooks mint)) = 1%nat /\
  refreshCount (state_after st (mintTokens hooks mint)) = refreshCount st + 1 /\
  count is_reload (trace (mintTokens hooks mint)) = 0%nat.
Proof.
  intros Hdata Hsigs Haddr Hwallet Hclient Hwrite Hwait.
  rewrite (mintTokens_submits hooks mint mint_data mint_signatures address wallet client)
    by assumption.
  rewrite (submit_success mint mint_data mint_signatures address wallet client
             txHash Hwrite Hwait).
  repeat split; reflexivity.
Qed.

(** ** Further properties of the two components *)

(** *** The connection gate *)

(** X1. Which of its three views [WagmiConnectionManager] renders: the
    request to connect without an address, whatever the chain; the prompt
    with an address on a chain other than the required one; the children
    with an address and no chain or the required chain. *)
Theorem WagmiConnectionManager_views (chain : option Chain) (address : option string) :
  (WagmiConnectionManager DEFAULT_CHAIN chain address = PleaseConnect <->
   narrow_string address = None) /\
  (WagmiConnectionManager DEFAULT_CHAIN chain address = InvalidNetwork <->
   narrow_string address <> None /\
   exists c, chain = Some c /\ id c <> id DEFAULT_CHAIN) /\
  (WagmiConnectionManager DEFAULT_CHAIN chain address = Children <->
   narrow_string address <> None /\
   (chain = None \/ exists c, chain = Some c /\ id c = id DEFAULT_CHAIN)).
Proof.
  unfold WagmiConnectionManager, truthy_string, isInvalidNetwork.
  destruct (narrow_string address) as [a|]; cbn.
  - destruct chain as [c|]; cbn.
    + destruct (Z.eqb_spec (id c) (id DEFAULT_CHAIN)) as [Heq|Hne]; cbn.
      * split; [split; discriminate|]. split; split.
        -- discriminate.
        -- intros [_ (c' & [= <-] & Hne)]. contradiction.
        -- intros _. split; [discriminate|]. right. exists c. split; [reflexivity|exact Heq].
        -- reflexivity.
      * split; [split; discriminate|]. split; split.
        -- intros _. split; [discriminate|]. exists c. split; [reflexivity|exact Hne].
        -- reflexivity.
        -- discriminate.
        -- intros [_ [Hnone|(c' & [= <-] & Heq)]]; [discriminate|contradiction].
    + split; [split; discriminate|]. split; split.
      * discriminate.
      * intros [_ (c' & Hc & _)]. discriminate.
      * intros _. split; [discriminate|]. left. reflexivity.
      * reflexivity.
  - split; [split; reflexivity|]. split; split.
    + discriminate.
    + intros [Habs _]. contradiction.
    + discriminate.
    + intros [Habs _]. contradiction.
Qed.

(** X2. The chain the prompt asks the wallet to switch to is one the gate
    lets through: once the wallet is on a chain with the identifier of a
    switch request, a connected account sees the children. *)
Theorem onSwitch_target_passes_gate
    (hook : SwitchNetworkHook) (chainId : Z) (c : Chain) (address : option string) :
  In (SwitchNetwork chainId) (onSwitch DEFAULT_CHAIN hook) ->
  id c = chainId ->
  narrow_string address <> None ->
  isInvalidNetwork DEFAULT_CHAIN (Some c) = false /\
  WagmiConnectionManager DEFAULT_CHAIN (Some c) address = Children.
Proof.
  unfold onSwitch. intros Hin Hid Haddr.
  destruct (has_switchNetwork hook); [|destruct Hin].
  destruct Hin as [[= <-]|[]].
  assert (Hvalid : isInvalidNetwork DEFAULT_CHAIN (Some c) = false).
  { cbn. rewrite Hid, Z.eqb_refl. reflexivity. }
  split; [exact Hvalid|].
  unfold WagmiConnectionManager, truthy_string. rewrite Hvalid.
  destruct (narrow_string address); [reflexivity|contradiction].
Qed.


(** *** The rows *)

Lemma lower_ascii_idempotent (c : ascii) :
  lower_ascii (lower_ascii c) = lower_ascii c.
Proof.
  destruct c as [[] [] [] [] [] [] [] []]; reflexivity.
Qed.

Lemma toLowerCase_idempotent (s : string) :
  toLowerCase (toLowerCase s) = toLowerCase s.
Proof.
  induction s as [|c r IH]; cbn; [reflexivity|].
  rewrite lower_ascii_idempotent, IH. reflexivity.
Qed.

(** X4. The nonce map is read only at lower-case keys: an entry stored
    under a key with an upper-case letter changes no row. *)
Theorem mixed_case_entry_is_never_read
    (st : PanelState) (nonceMap : gmap string Z) (mint : Mint)
    (key : string) (n : Z) :
  toLowerCase key <> key ->
  render_row BigInt st (<[key := n]> nonceMap) mint =
  render_row BigInt st nonceMap mint.
Proof.
  intros Hkey. unfold render_row.
  rewrite lookup_insert_ne; [reflexivity|].
  intros ->. apply Hkey. apply toLowerCase_idempotent.
Qed.

(** The flags and the Action cell of a rendered row are the ones
    [render_row] gives. *)
Lemma render_table_row_flags_and_action
    (st : PanelState) (nonceMap : gmap string Z) (mint : Mint) (cells : TableRow) :
  render_table_row BigInt formatUnits humanFormattedDate st nonceMap mint =
    Normal cells ->
  render_row BigInt st nonceMap mint = Normal (flags_and_action cells).
Proof.
  unfold render_table_row, render_row.
  destruct (isMintNotReady BigInt _ mint) as [notReady|e]; cbn; [|discriminate].
  destruct (isMintCompleted BigInt _ mint) as [completed|e]; cbn; [|discriminate].
  destruct (BigInt (Mint.amount mint)) as [amount|e]; cbn; [|discriminate].
  destruct (humanFormattedDate (Mint.created_at mint)) as [created|e]; cbn;
    [|discriminate].
  destruct (shows_button _ mint) as [button|e]; cbn; [|discriminate].
  intros [= <-]. reflexivity.
Qed.

(** X5. A recipient that is not in the nonce map: the row evaluates
    neither the nonce nor the signatures of the mint. It is the row of the
    Amount and date cells, with both flags raised and "N/A" in the Action
    column, and it throws exactly as [BigInt(mint.amount)] or the date
    helper throw. *)
Theorem row_of_unknown_recipient
    (st : PanelState) (nonceMap : gmap string Z) (mint : Mint) :
  nonceMap !! toLowerCase (Mint.recipient_address mint) = None ->
  render_table_row BigInt formatUnits humanFormattedDate st nonceMap mint =
    (amount ← BigInt (Mint.amount mint);
     created ← humanFormattedDate (Mint.created_at mint);
     Normal {| amount_cell := formatUnits amount 6;
               created_at_cell := created;
               status_tooltip := pending_hint mint;
               status_icon := String.eqb (Mint.status mint) "pending";
               flags_and_action :=
                 {| row_isMintNotReady := true;
                    row_isMintCompleted := true;
                    row_action := NotAvailable |};
               mint_tx_hash_cell := narrow_string (Mint.mint_tx_hash mint) |}).
Proof.
  intros Hnone. unfold render_table_row. rewrite Hnone. cbn.
  destruct (BigInt (Mint.amount mint)) as [amount|e]; cbn; [|reflexivity].
  destruct (humanFormattedDate (Mint.created_at mint)) as [created|e];
    reflexivity.
Qed.

(** X6. With a usable nonce the two flags exclude each other; both are
    raised only where the nonce is unknown or zero. *)
Theorem flags_both_raised_iff (nonce : option Z) (mint : Mint) (a b : bool) :
  isMintNotReady BigInt nonce mint = Normal a ->
  isMintCompleted BigInt nonce mint = Normal b ->
  (a = true /\ b = true <-> narrow_bigint nonce = None).
Proof.
  unfold isMintNotReady, isMintCompleted.
  destruct (narrow_bigint nonce) as [n|].
  - destruct (narrow_string (Mint.nonce mint)) as [text|].
    + destruct (BigInt text) as [m|e]; cbn; [|discriminate].
      intros [= <-] [= <-]. split; [|discriminate].
      intros [Hgt Hle]. apply Z.gtb_lt in Hgt. apply Z.leb_le in Hle. lia.
    + intros [= <-] [= <-]. split; [|discriminate].
      intros [_ Habs]. discriminate.
  - intros [= <-] [= <-]. split; [reflexivity|]. intros _. split; reflexivity.
Qed.

(** The status test of the Action cell, spelled out. *)
Lemma shows_button_true_iff (nonce : option Z) (mint : Mint) :
  shows_button nonce mint = Normal true <->
  narrow_bigint nonce <> None /\
  (Mint.status mint = "signed" \/
   (Mint.status mint = "confirmed" /\
    exists sigs, Mint.signatures mint = Some sigs /\ (2 <= length sigs)%nat)).
Proof.
  unfold shows_button, truthy_bigint, enough_signatures.
  destruct (narrow_bigint nonce) as [n|]; cbn.
  - destruct (String.eqb_spec (Mint.status mint) "signed") as [Hs|Hs].
    + split; [|reflexivity]. intros _. split; [discriminate|left; exact Hs].
    + destruct (String.eqb_spec (Mint.status mint) "confirmed") as [Hc|Hc].
      * destruct (Mint.signatures mint) as [sigs|].
        -- split.
           ++ intros [= Hlen]. apply Z.leb_le in Hlen.
              split; [discriminate|]. right. split; [exact Hc|].
              exists sigs. split; [reflexivity|lia].
           ++ intros [_ [Habs|[_ (sigs' & [= <-] & Hlen)]]]; [contradiction|].
              f_equal. apply Z.leb_le. lia.
        -- split; [discriminate|].
           intros [_ [Habs|[_ (sigs' & Habs & _)]]]; [contradiction|discriminate].
      * split; [discriminate|].
        intros [_ [Habs|[Habs _]]]; contradiction.
  - split; [discriminate|]. intros [Habs _]. contradiction.
Qed.

(** The [isDisabled] prop of a rendered button is false exactly on the
    next mint of its recipient. *)
Lemma not_disabled_iff_next_mint
    (st : PanelState) (nonceMap : gmap string Z) (mint : Mint) (row : Row) :
  render_row BigInt st nonceMap mint = Normal row ->
  (action_enabled (row_action row) = true <->
   exists n text,
     nonceMap !! toLowerCase (Mint.recipient_address mint) = Some n /\
     n <> 0 /\
     narrow_string (Mint.nonce mint) = Some text /\
     BigInt text = Normal (n + 1) /\
     (Mint.status mint = "signed" \/
      (Mint.status mint = "confirmed" /\
       exists sigs, Mint.signatures mint = Some sigs /\ (2 <= length sigs)%nat))).
Proof.
  unfold render_row.
  set (nonce := nonceMap !! toLowerCase (Mint.recipient_address mint)).
  pose proof (shows_button_true_iff nonce mint) as Hbutton.
  unfold isMintNotReady, isMintCompleted.
  destruct (narrow_bigint nonce) as [n|] eqn:Hnonce.
  - apply narrow_bigint_Some in Hnonce as [Hn Hn0].
    destruct (narrow_string (Mint.nonce mint)) as [text|] eqn:Htext.
    + destruct (BigInt text) as [m|e] eqn:Hm; cbn; [|discriminate].
      destruct (shows_button nonce mint) as [button|e]; cbn; [|discriminate].
      intros [= <-]. cbn. split.
      * destruct button; cbn; [|discriminate].
        intros Hen. apply negb_true_iff, orb_false_iff in Hen as [Hgt Hle].
        rewrite Z.gtb_ltb in Hgt. apply Z.ltb_ge in Hgt. apply Z.leb_gt in Hle.
        exists n, text.
        split; [exact Hn|]. split; [exact Hn0|]. split; [reflexivity|].
        split; [rewrite Hm; f_equal; lia|]. apply Hbutton. reflexivity.
      * intros (n' & text' & Hn' & _ & Htext' & Hm' & Hstatus).
        assert (n' = n) as -> by congruence.
        assert (text' = text) as -> by congruence.
        rewrite Hm in Hm'. injection Hm' as ->.
        assert (Hb : Normal button = Normal true).
        { apply Hbutton. split; [discriminate|exact Hstatus]. }
        injection Hb as ->. cbn.
        apply negb_true_iff, orb_false_iff. split.
        -- rewrite Z.gtb_ltb. apply Z.ltb_ge. lia.
        -- apply Z.leb_gt. lia.
    + cbn. destruct (shows_button nonce mint) as [button|e]; cbn; [|discriminate].
      intros [= <-]. cbn. split.
      * destruct button; cbn; discriminate.
      * intros (n' & text' & _ & _ & Habs & _). discriminate.
  - cbn. destruct (shows_button nonce mint) as [button|e] eqn:Hshow; cbn;
      [|discriminate].
    intros [= <-]. cbn. split.
    + destruct button; cbn; discriminate.
    + intros (n' & text' & Hn' & Hn0 & _). fold nonce in Hn'.
      rewrite Hn' in Hnonce. rewrite (narrow_bigint_known n' Hn0) in Hnonce.
      discriminate.
Qed.

Lemma can_be_pressed_split
    (st : PanelState) (nonceMap : gmap string Z) (mint : Mint) (row : Row) :
  render_row BigInt st nonceMap mint = Normal row ->
  can_be_pressed (row_action row) =
    action_enabled (row_action row) && negb (is_current st mint).
Proof.
  unfold render_row.
  destruct (isMintNotReady BigInt _ mint) as [notReady|e]; cbn; [|discriminate].
  destruct (isMintCompleted BigInt _ mint) as [completed|e]; cbn; [|discriminate].
  destruct (shows_button _ mint) as [[]|e]; cbn; [| |discriminate];
    intros [= <-]; reflexivity.
Qed.

(** X7. The button of a rendered row can be pressed exactly when the mint
    is the next one of its recipient and is not the one being submitted:
    the on-chain nonce [n] is known and not zero, the recorded nonce is
    set and denotes [n + 1], the status is "signed", or "confirmed" with
    at least two signatures, and [isLoading && _id === currentMintId]
    is false. *)
Theorem button_pressable_iff_next_mint
    (st : PanelState) (nonceMap : gmap string Z) (mint : Mint) (row : Row) :
  render_row BigInt st nonceMap mint = Normal row ->
  (can_be_pressed (row_action row) = true <->
   is_current st mint = false /\
   exists n text,
     nonceMap !! toLowerCase (Mint.recipient_address mint) = Some n /\
     n <> 0 /\
     narrow_string (Mint.nonce mint) = Some text /\
     BigInt text = Normal (n + 1) /\
     (Mint.status mint = "signed" \/
      (Mint.status mint = "confirmed" /\
       exists sigs, Mint.signatures mint = Some sigs /\ (2 <= length sigs)%nat))).
Proof.
  intros Hrow.
  rewrite (can_be_pressed_split st nonceMap mint row Hrow).
  rewrite andb_true_iff, negb_true_iff.
  rewrite (not_disabled_iff_next_mint st nonceMap mint row Hrow).
  split; intros [H1 H2]; split; assumption.
Qed.

(** X8. A button that cannot be pressed says why, and one that can says
    nothing: the tooltip is empty exactly on an enabled button, asks to
    complete the previous mints exactly on a "not ready" row, and reports
    the completed mint exactly on a row that is "completed" only. *)
Theorem tooltip_explains_disabled_button
    (st : PanelState) (nonceMap : gmap string Z) (mint : Mint)
    (row : Row) (props : ButtonProps) :
  render_row BigInt st nonceMap mint = Normal row ->
  row_action row = MintButton props ->
  (tooltip props = "" <-> isDisabled props = false) /\
  (tooltip props = "Please complete previous mints first" <->
   row_isMintNotReady row = true) /\
  (tooltip props =
     "Mint completed, please wait for validators to mark it as complete" <->
   row_isMintNotReady row = false /\ row_isMintCompleted row = true).
Proof.
  unfold render_row.
  destruct (isMintNotReady BigInt _ mint) as [notReady|e]; cbn; [|discriminate].
  destruct (isMintCompleted BigInt _ mint) as [completed|e]; cbn; [|discriminate].
  destruct (shows_button _ mint) as [button|e]; cbn; [|discriminate].
  intros [= <-]. cbn. destruct button; [|discriminate]. intros [= <-]. cbn.
  destruct notReady, completed; cbn;
    (split; [|split]); split;
    solve [ reflexivity | discriminate | intros [? ?]; discriminate
          | intros _; split; reflexivity ].
Qed.

(** X10. A recorded nonce that [BigInt] rejects makes the row throw that
    error, once the recipient has a usable on-chain nonce. *)
Theorem row_throws_on_malformed_nonce
    (st : PanelState) (nonceMap : gmap string Z) (mint : Mint)
    (n : Z) (text : string) (e : JsError) :
  nonceMap !! toLowerCase (Mint.recipient_address mint) = Some n ->
  n <> 0 ->
  narrow_string (Mint.nonce mint) = Some text ->
  BigInt text = Throw e ->
  render_row BigInt st nonceMap mint = Throw e.
Proof.
  intros Hn Hn0 Htext He. unfold render_row, isMintNotReady.
  rewrite Hn, (narrow_bigint_known n Hn0), Htext, He. reflexivity.
Qed.

(** X11. A "confirmed" mint without its signatures array makes the row
    throw a [TypeError], once the recipient has a usable on-chain nonce
    and everything evaluated before the Action cell (the two flags, the
    Amount cell, the date cell) comes through. *)
Theorem row_throws_on_confirmed_without_signatures
    (st : PanelState) (nonceMap : gmap string Z) (mint : Mint)
    (n : Z) (recorded : option Z) (amount : Z) (created : string) :
  nonceMap !! toLowerCase (Mint.recipient_address mint) = Some n ->
  n <> 0 ->
  recorded_nonce BigInt mint = Normal recorded ->
  BigInt (Mint.amount mint) = Normal amount ->
  humanFormattedDate (Mint.created_at mint) = Normal created ->
  Mint.status mint = "confirmed" ->
  Mint.signatures mint = None ->
  exists msg,
    render_table_row BigInt formatUnits humanFormattedDate st nonceMap mint =
      Throw (TypeError msg).
Proof.
  intros Hn Hn0 Hrec Hamount Hcreated Hstatus Hsigs.
  destruct (flags_with_nonce n mint recorded Hn0 Hrec) as [HnotReady Hcompleted].
  unfold render_table_row.
  rewrite Hn, HnotReady, Hcompleted. cbn. rewrite Hamount. cbn.
  rewrite Hcreated. cbn.
  unfold shows_button, truthy_bigint, enough_signatures.
  rewrite (narrow_bigint_known n Hn0), Hstatus, Hsigs. cbn. eauto.
Qed.

(** *** The table *)

(** X12. A rendered table has one row per mint, in the order of the
    mints, each the rendering of its mint. *)
Theorem table_rows_follow_mints
    (st : PanelState) (nonceMap : gmap string Z)
    (mints : list Mint) (rows : list Row) :
  MintTable BigInt false st nonceMap mints = Normal (Some rows) ->
  Forall2 (fun mint row => render_row BigInt st nonceMap mint = Normal row)
          mints rows.
Proof.
  unfold MintTable. cbn.
  destruct (render_rows BigInt st nonceMap mints) as [rows'|e] eqn:Hrows; cbn;
    [|discriminate].
  intros [= <-]. revert rows' Hrows.
  induction mints as [|mint rest IH]; cbn; intros rows' Hrows.
  - injection Hrows as <-. constructor.
  - destruct (render_row BigInt st nonceMap mint) as [row|e] eqn:Hrow; cbn in Hrows;
      [|discriminate].
    destruct (render_rows BigInt st nonceMap rest) as [rows''|e]; cbn in Hrows;
      [|discriminate].
    injection Hrows as <-. constructor; [exact Hrow|]. apply IH. reflexivity.
Qed.



(** While the mints load there is no table, and so no row to throw. *)
Lemma no_table_while_loading
    (st : PanelState) (nonceMap : gmap string Z) (mints : list Mint) :
  MintTable BigInt true st nonceMap mints = Normal None.
Proof. reflexivity. Qed.

Lemma spinner_is_current
    (st : PanelState) (nonceMap : gmap string Z) (mint : Mint) (row : Row) :
  render_row BigInt st nonceMap mint = Normal row ->
  shows_spinner row = true ->
  isLoading st = true /\ currentMintId st = Some (Mint._id mint).
Proof.
  unfold render_row.
  destruct (isMintNotReady BigInt _ mint) as [notReady|e]; cbn; [|discriminate].
  destruct (isMintCompleted BigInt _ mint) as [completed|e]; cbn; [|discriminate].
  destruct (shows_button _ mint) as [button|e]; cbn; [|discriminate].
  intros [= <-]. unfold shows_spinner. cbn.
  destruct button; cbn; [|discriminate].
  unfold is_current. intros Hcur. apply andb_true_iff in Hcur as [Hload Hid].
  split; [exact Hload|].
  destruct (currentMintId st) as [current|]; [|discriminate].
  apply String.eqb_eq in Hid. congruence.
Qed.

Lemma no_spinner_without_current
    (st : PanelState) (nonceMap : gmap string Z) (mints : list Mint) :
  forall rows,
  render_rows BigInt st nonceMap mints = Normal rows ->
  (forall mint, In mint mints -> currentMintId st <> Some (Mint._id mint)) ->
  List.filter shows_spinner rows = [].
Proof.
  induction mints as [|mint rest IH]; cbn; intros rows Hrows Hnot.
  - injection Hrows as <-. reflexivity.
  - destruct (render_row BigInt st nonceMap mint) as [row|e] eqn:Hrow; cbn in Hrows;
      [|discriminate].
    destruct (render_rows BigInt st nonceMap rest) as [rows'|e]; cbn in Hrows;
      [|discriminate].
    injection Hrows as <-. cbn.
    destruct (shows_spinner row) eqn:Hspin.
    + destruct (spinner_is_current st nonceMap mint row Hrow Hspin) as [_ Hcur].
      exfalso. apply (Hnot mint); [left; reflexivity|exact Hcur].
    + apply IH; [reflexivity|]. intros mint' Hin. apply Hnot. right. exact Hin.
Qed.

(** X14. With mints of distinct identifiers, at most one row of the table
    shows the spinner. *)
Theorem at_most_one_spinner
    (st : PanelState) (nonceMap : gmap string Z)
    (mints : list Mint) (rows : list Row) :
  List.NoDup (List.map Mint._id mints) ->
  MintTable BigInt false st nonceMap mints = Normal (Some rows) ->
  (length (List.filter shows_spinner rows) <= 1)%nat.
Proof.
  unfold MintTable. cbn. intros Hnodup.
  destruct (render_rows BigInt st nonceMap mints) as [rows'|e] eqn:Hrows; cbn;
    [|discriminate].
  intros [= <-]. revert rows' Hrows.
  induction mints as [|mint rest IH]; cbn; intros rows' Hrows.
  - injection Hrows as <-. cbn. lia.
  - apply List.NoDup_cons_iff in Hnodup as [Hfresh Hnodup].
    destruct (render_row BigInt st nonceMap mint) as [row|e] eqn:Hrow; cbn in Hrows;
      [|discriminate].
    destruct (render_rows BigInt st nonceMap rest) as [rows''|e] eqn:Hrest;
      cbn in Hrows; [|discriminate].
    injection Hrows as <-. cbn.
    destruct (shows_spinner row) eqn:Hspin.
    + destruct (spinner_is_current st nonceMap mint row Hrow Hspin) as [_ Hcur].
      rewrite (no_spinner_without_current st nonceMap rest rows'' Hrest).
      * cbn. lia.
      * intros mint' Hin Habs. apply Hfresh.
        rewrite Hcur in Habs. injection Habs as ->.
        apply List.in_map. exact Hin.
    + apply IH; [exact Hnodup|reflexivity].
Qed.

(** *** The callback, over all its runs *)

(** The three ways into [mintTokens]. *)
Lemma mintTokens_cases (hooks : Hooks) (mint : Mint) :
  ((Mint.data mint = None \/ Mint.signatures mint = None) /\
   mintTokens hooks mint = call (Toast toast_mint_not_ready)) \/
  mintTokens hooks mint = mret tt \/
  exists mint_data mint_signatures address wallet client,
    Mint.data mint = Some mint_data /\
    Mint.signatures mint = Some mint_signatures /\
    narrow_string (account_address hooks) = Some address /\
    walletClient hooks = Some wallet /\
    publicClient hooks = Some client /\
    mintTokens hooks mint =
      submit MINT_CONTROLLER_ABI MINT_CONTROLLER_ADDRESS
        mint mint_data mint_signatures address wallet client.
Proof.
  unfold mintTokens.
  destruct (Mint.data mint) as [mint_data|];
    [|left; split; [left|]; reflexivity].
  destruct (Mint.signatures mint) as [mint_signatures|];
    [|left; split; [right|]; reflexivity].
  destruct (narrow_string (account_address hooks)) as [address|];
    [|right; left; reflexivity].
  destruct (walletClient hooks) as [wallet|]; [|right; left; reflexivity].
  destruct (publicClient hooks) as [client|]; [|right; left; reflexivity].
  right. right. exists mint_data, mint_signatures, address, wallet, client.
  repeat split; reflexivity.
Qed.

(** Case analysis on a run of the [try] statement: one goal per way the
    two promises settle, with the trace written out. *)
Ltac submit_cases mint d sigs a w c Hwrite Hwait :=
  let h := fresh "txHash" in
  let e := fresh "e" in
  destruct (writeContract w (mint_request a d sigs)) as [h|e|] eqn:Hwrite;
  [ destruct (waitForTransactionReceipt c h) as [[]|e|] eqn:Hwait;
    [ rewrite (submit_success mint d sigs a w c h Hwrite Hwait)
    | rewrite (submit_wait_fails mint d sigs a w c h e Hwrite Hwait)
    | rewrite (submit_wait_pending mint d sigs a w c h Hwrite Hwait) ]
  | rewrite (submit_write_fails mint d sigs a w c e Hwrite)
  | rewrite (submit_write_pending mint d sigs a w c Hwrite) ].

Ltac run_cases hooks mint :=
  let d := fresh "mint_data" in
  let sigs := fresh "mint_signatures" in
  let a := fresh "address" in
  let w := fresh "wallet" in
  let c := fresh "client" in
  let Hd := fresh "Hdata" in
  let Hs := fresh "Hsigs" in
  let Ha := fresh "Haddr" in
  let Hw := fresh "Hwallet" in
  let Hc := fresh "Hclient" in
  let Hrun := fresh "Hrun" in
  let Hwrite := fresh "Hwrite" in
  let Hwait := fresh "Hwait" in
  destruct (mintTokens_cases hooks mint)
    as [[_ Hrun]|[Hrun|(d & sigs & a & w & c & Hd & Hs & Ha & Hw & Hc & Hrun)]];
  rewrite Hrun; [| |submit_cases mint d sigs a w c Hwrite Hwait].

(** X15. The promise [mintTokens] returns is never rejected: whatever
    the wallet or the chain answer, the callback returns or stays on an
    [await], it does not throw. *)
Theorem mintTokens_never_rejects (hooks : Hooks) (mint : Mint) :
  outcome (mintTokens hooks mint) = Some (Normal tt) \/
  outcome (mintTokens hooks mint) = None.
Proof.
  run_cases hooks mint; cbn; (left; reflexivity) || (right; reflexivity).
Qed.

(** X16. In every run: [reload] is not called, [writeContract] is called
    at most once, the receipt is awaited at most once and only after a
    write, at most two notifications are put up, at most one of them an
    error. *)
Theorem mintTokens_call_discipline (hooks : Hooks) (mint : Mint) :
  count is_reload (trace (mintTokens hooks mint)) = 0%nat /\
  (count is_write (trace (mintTokens hooks mint)) <= 1)%nat /\
  (count is_wait (trace (mintTokens hooks mint)) <=
     count is_write (trace (mintTokens hooks mint)))%nat /\
  (count is_toast (trace (mintTokens hooks mint)) <= 2)%nat /\
  (count is_error_toast (trace (mintTokens hooks mint)) <= 1)%nat.
Proof.
  run_cases hooks mint; cbn; lia.
Qed.

(** X17. The nonce lookup is refreshed exactly with the success
    notification: [refreshCount] goes up by the number of success toasts
    of the run, which is one after a write and a receipt that both
    succeed and zero on every other run. *)
Theorem refresh_goes_with_success_toast
    (hooks : Hooks) (mint : Mint) (st : PanelState) :
  refreshCount (state_after st (mintTokens hooks mint)) =
    refreshCount st +
    Z.of_nat (count is_success_toast (trace (mintTokens hooks mint))) /\
  count is_refresh (trace (mintTokens hooks mint)) =
    count is_success_toast (trace (mintTokens hooks mint)) /\
  (count is_success_toast (trace (mintTokens hooks mint)) <= 1)%nat /\
  (count is_success_toast (trace (mintTokens hooks mint)) = 1%nat ->
   count is_error_toast (trace (mintTokens hooks mint)) = 0%nat /\
   outcome (mintTokens hooks mint) = Some (Normal tt)).
Proof.
  run_cases hooks mint; cbn; repeat split; try lia; try discriminate.
Qed.

(** X18. A receipt that fails after a write that succeeded: the callback
    returns, with the two markers cleared, the nonce lookup not
    refreshed, and the error notification standing alone in place of the
    loading one. *)
Theorem mintTokens_receipt_failure
    (hooks : Hooks) (mint : Mint) (st : PanelState)
    (mint_data : MintData) (mint_signatures : list string)
    (address : string) (wallet : WalletClient) (client : PublicClient)
    (txHash : string) (e : JsError) :
  Mint.data mint = Some mint_data ->
  Mint.signatures mint = Some mint_signatures ->
  narrow_string (account_address hooks) = Some address ->
  walletClient hooks = Some wallet ->
  publicClient hooks = Some client ->
  writeContract wallet (mint_request address mint_data mint_signatures) =
    Fulfilled txHash ->
  waitForTransactionReceipt client txHash = Rejected e ->
  outcome (mintTokens hooks mint) = Some (Normal tt) /\
  isLoading (state_after st (mintTokens hooks mint)) = false /\
  currentMintId (state_after st (mintTokens hooks mint)) = None /\
  refreshCount (state_after st (mintTokens hooks mint)) = refreshCount st /\
  count is_error_toast (trace (mintTokens hooks mint)) = 1%nat /\
  In (ConsoleError e) (trace (mintTokens hooks mint)) /\
  open_toasts (trace (mintTokens hooks mint)) = [toast_error_minting].
Proof.
  intros Hdata Hsigs Haddr Hwallet Hclient Hwrite Hwait.
  rewrite (mintTokens_submits hooks mint mint_data mint_signatures address wallet client)
    by assumption.
  rewrite (submit_wait_fails mint mint_data mint_signatures address wallet client
             txHash e Hwrite Hwait).
  cbn. repeat split; try reflexivity. do 7 right. left. reflexivity.
Qed.

(** X19. What is sent to the contract is the mint's own data and
    signatures: every [writeContract] call of a run names the function
    [mintWrappedPocket] of the mint controller, with the connected
    account, and carries the [data] and the [signatures] of the mint. *)
Theorem write_request_carries_the_mint
    (hooks : Hooks) (mint : Mint) (request : WriteContractParameters) :
  In (WriteContract request) (trace (mintTokens hooks mint)) ->
  functionName request = "mintWrappedPocket" /\
  address request = MINT_CONTROLLER_ADDRESS /\
  abi request = MINT_CONTROLLER_ABI /\
  narrow_string (account_address hooks) = Some (account request) /\
  Mint.data mint = Some (fst (args request)) /\
  Mint.signatures mint = Some (snd (args request)).
Proof.
  run_cases hooks mint; cbn; intros Hin;
    repeat (destruct Hin as [Hin|Hin]; [try discriminate Hin|]);
    try contradiction;
    injection Hin as <-; cbn; repeat split; assumption || reflexivity.
Qed.

(** X20. The receipt awaited is the one of the transaction just sent: the
    hash of every [waitForTransactionReceipt] call is the hash the
    wallet returned for the request of this mint, and the notification
    with the Etherscan link to that hash has been put up. *)
Theorem receipt_awaited_for_returned_hash
    (hooks : Hooks) (mint : Mint) (txHash : string) :
  In (WaitForTransactionReceipt txHash) (trace (mintTokens hooks mint)) ->
  (exists mint_data mint_signatures address wallet,
     Mint.data mint = Some mint_data /\
     Mint.signatures mint = Some mint_signatures /\
     narrow_string (account_address hooks) = Some address /\
     walletClient hooks = Some wallet /\
     writeContract wallet (mint_request address mint_data mint_signatures) =
       Fulfilled txHash) /\
  In (Toast (toast_transaction_sent txHash)) (trace (mintTokens hooks mint)).
Proof.
  run_cases hooks mint; cbn; intros Hin;
    repeat (destruct Hin as [Hin|Hin]; [try discriminate Hin|]);
    try contradiction;
    injection Hin as <-;
    (split; [do 4 eexists; repeat split; eassumption
            | do 4 right; left; reflexivity]).
Qed.



(** X22. Once a run that raised the busy indicator has come to its end,
    no row is the current one: the spinner is gone from every button. *)
Theorem no_spinner_after_completed_run
    (hooks : Hooks) (mint other : Mint) (st : PanelState) :
  In (SetIsLoading true) (trace (mintTokens hooks mint)) ->
  completes (mintTokens hooks mint) = true ->
  is_current (state_after st (mintTokens hooks mint)) other = false.
Proof.
  intros Henter Hdone.
  destruct (mintTokens_enters_submission hooks mint Henter)
    as (mint_data & mint_signatures & address & wallet & client & Hrun).
  rewrite Hrun in Hdone |- *.
  destruct (submit_cleanup mint mint_data mint_signatures address wallet client
              st Hdone) as [Hloading _].
  unfold is_current. rewrite Hloading. reflexivity.
Qed.

(** X23. One notification at a time: a run leaves at most one toast
    open. A run of the [try] statement that came to its end leaves
    exactly one, closable and shown for five seconds (the success or the
    error); a run still waiting leaves none or the loading toast, which
    cannot be closed and does not expire. *)
Theorem one_toast_at_a_time (hooks : Hooks) (mint : Mint) :
  (length (open_toasts (trace (mintTokens hooks mint))) <= 1)%nat /\
  (In (SetIsLoading true) (trace (mintTokens hooks mint)) ->
   completes (mintTokens hooks mint) = true ->
   exists options,
     open_toasts (trace (mintTokens hooks mint)) = [options] /\
     toast_status options <> loading /\
     isClosable options = true /\
     duration options = Some 5000) /\
  (completes (mintTokens hooks mint) = false ->
   forall options,
     In options (open_toasts (trace (mintTokens hooks mint))) ->
     toast_status options = loading /\
     isClosable options = false /\
     duration options = None).
Proof.
  run_cases hooks mint; cbn; (split; [lia|]); split.
  all: try (intros Hin Hdone; try discriminate Hdone;
            try (destruct Hin as [Hin|[]]; discriminate Hin);
            try contradiction;
            eexists; (split; [reflexivity|]); (split; [discriminate|]);
            split; reflexivity).
  all: intros Hdone options Hopt; try discriminate Hdone;
       try contradiction; destruct Hopt as [<-|[]]; repeat split; reflexivity.
Qed.

(** X24. A run that does not raise the busy indicator (the mint is
    incomplete, or the wallet is not connected) leaves the state of the
    panel as it was. *)
Theorem state_untouched_outside_submission
    (hooks : Hooks) (mint : Mint) (st : PanelState) :
  ~ In (SetIsLoading true) (trace (mintTokens hooks mint)) ->
  state_after st (mintTokens hooks mint) = st /\
  count is_write (trace (mintTokens hooks mint)) = 0%nat /\
  completes (mintTokens hooks mint) = true.
Proof.
  run_cases hooks mint; cbn; intros Hnot;
    try (exfalso; apply Hnot; left; reflexivity);
    repeat split; reflexivity.
Qed.

End Properties.

(** ** The properties on the sample data *)

(** C1 as worded fails where the nonce is unknown: the code raises the
    "completed" flag there, the wording does not. *)
Lemma flags_match_spec_fails_without_nonce :
  ~ flags_match_spec BigInt_decimal None signed_mint.
Proof.
  intros H. destruct (H (Some 3) eq_refl) as [_ Hcompleted].
  vm_compute in Hcompleted. discriminate.
Qed.

(** The mint numbered 3 of a recipient whose on-chain nonce is 2 is the
    next one: neither flag is raised. *)
Lemma actionability_flags_next_mint :
  isMintNotReady BigInt_decimal (Some 2) signed_mint = Normal false /\
  isMintCompleted BigInt_decimal (Some 2) signed_mint = Normal false.
Proof.
  apply (actionability_flags BigInt_decimal (Some 2) signed_mint (Some 3)).
  - discriminate.
  - reflexivity.
Defined.

(** Its button can be pressed, and the mint is signed. *)
Lemma button_enabled_next_mint :
  action_enabled
    (MintButton {| tooltip := ""; button_isLoading := false; isDisabled := false |})
    = true /\
  ((Mint.status signed_mint = "signed" \/
    (Mint.status signed_mint = "confirmed" /\
     exists sigs, Mint.signatures signed_mint = Some sigs /\ (2 <= length sigs)%nat)) /\
   (exists n m,
      nonces_of 2 !! toLowerCase (Mint.recipient_address signed_mint) = Some n /\
      recorded_nonce BigInt_decimal signed_mint = Normal (Some m) /\
      ~ m > n + 1 /\
      ~ m <= n /\
      spec_not_ready (Some n) (Some m) = false /\
      spec_completed (Some n) (Some m) = false) /\
   isMintNotReady BigInt_decimal
     (nonces_of 2 !! toLowerCase (Mint.recipient_address signed_mint)) signed_mint
     = Normal false /\
   isMintCompleted BigInt_decimal
     (nonces_of 2 !! toLowerCase (Mint.recipient_address signed_mint)) signed_mint
     = Normal false).
Proof.
  split; [reflexivity|].
  apply (button_enabled_only_when BigInt_decimal idle (nonces_of 2) signed_mint
           idle_next_row).
  - vm_compute. reflexivity.
  - reflexivity.
Defined.

(** With the on-chain nonce 0 the same mint gets no button. *)
Lemma zero_nonce_row :
  render_row BigInt_decimal idle (nonces_of 0) signed_mint =
    Normal {| row_isMintNotReady := true;
              row_isMintCompleted := true;
              row_action := NotAvailable |}.
Proof.
  apply (zero_nonce_is_unknown BigInt_decimal idle (nonces_of 0) signed_mint).
  vm_compute. reflexivity.
Defined.

(** C2 as worded fails on the successful run: [reload] is not called. *)
Lemma reload_not_called_after_success :
  ~ reload_called_once_after_success tt "0xC0117011e4"
      (connected accepting_wallet mined) signed_mint.
Proof.
  intros H.
  specialize (H tt ["0x51"; "0x52"] "0xAbC1" accepting_wallet mined "0x7e57"
                eq_refl eq_refl eq_refl eq_refl eq_refl eq_refl eq_refl).
  vm_compute in H. discriminate.
Qed.

Lemma refresh_called_once_after_success :
  count is_refresh
    (after_receipt (trace (sample_mintTokens (connected accepting_wallet mined) signed_mint)))
    = 1%nat /\
  count is_refresh
    (trace (sample_mintTokens (connected accepting_wallet mined) signed_mint)) = 1%nat /\
  refreshCount
    (state_after busy (sample_mintTokens (connected accepting_wallet mined) signed_mint))
    = 5 /\
  count is_reload
    (trace (sample_mintTokens (connected accepting_wallet mined) signed_mint)) = 0%nat.
Proof.
  apply (mintTokens_refreshes_once_after_success tt "0xC0117011e4"
           (connected accepting_wallet mined) signed_mint busy
           tt ["0x51"; "0x52"] "0xAbC1" accepting_wallet mined "0x7e57");
    reflexivity.
Defined.

Lemma incomplete_mint_rejected :
  completes (sample_mintTokens (connected accepting_wallet mined) unsigned_mint) = true /\
  count is_write
    (trace (sample_mintTokens (connected accepting_wallet mined) unsigned_mint)) = 0%nat /\
  count is_error_toast
    (trace (sample_mintTokens (connected accepting_wallet mined) unsigned_mint)) = 1%nat /\
  count is_toast
    (trace (sample_mintTokens (connected accepting_wallet mined) unsigned_mint)) = 1%nat.
Proof.
  apply (mintTokens_rejects_incomplete_mint tt "0xC0117011e4"
           (connected accepting_wallet mined) unsigned_mint).
  left. reflexivity.
Defined.

Lemma not_connected_is_silent :
  trace (sample_mintTokens disconnected signed_mint) = [] /\
  outcome (sample_mintTokens disconnected signed_mint) = Some (Normal tt) /\
  count is_write (trace (sample_mintTokens disconnected signed_mint)) = 0%nat /\
  count is_toast (trace (sample_mintTokens disconnected signed_mint)) = 0%nat /\
  isLoading (state_after busy (sample_mintTokens disconnected signed_mint)) = true /\
  currentMintId (state_after busy (sample_mintTokens disconnected signed_mint))
    = Some "64f0c0ffee".
Proof.
  apply (mintTokens_silent_when_not_connected tt "0xC0117011e4"
           disconnected signed_mint busy tt ["0x51"; "0x52"]).
  - reflexivity.
  - reflexivity.
  - left. reflexivity.
Defined.

Lemma refused_write_reported :
  completes (sample_mintTokens (connected refusing_wallet mined) signed_mint) = true /\
  isLoading
    (state_after busy (sample_mintTokens (connected refusing_wallet mined) signed_mint))
    = false /\
  count is_error_toast
    (trace (sample_mintTokens (connected refusing_wallet mined) signed_mint)) = 1%nat /\
  count is_toast
    (trace (sample_mintTokens (connected refusing_wallet mined) signed_mint)) = 1%nat.
Proof.
  apply (mintTokens_write_failure tt "0xC0117011e4"
           (connected refusing_wallet mined) signed_mint busy
           tt ["0x51"; "0x52"] "0xAbC1" refusing_wallet mined
           (Error "User rejected the request"));
    reflexivity.
Defined.

Lemma busy_markers_cleared_after_revert :
  isLoading
    (state_after idle (sample_mintTokens (connected accepting_wallet reverted) signed_mint))
    = false /\
  currentMintId
    (state_after idle (sample_mintTokens (connected accepting_wallet reverted) signed_mint))
    = None.
Proof.
  apply (mintTokens_clears_busy_markers tt "0xC0117011e4"
           (connected accepting_wallet reverted) signed_mint idle).
  - left. reflexivity.
  - reflexivity.
Defined.

(** A receipt that never comes: the callback stays on the [await], the
    [finally] block has not run and the markers stay up. *)
Example pending_receipt_keeps_loading :
  completes (sample_mintTokens (connected accepting_wallet unmined) signed_mint) = false /\
  isLoading
    (state_after idle (sample_mintTokens (connected accepting_wallet unmined) signed_mint))
    = true /\
  currentMintId
    (state_after idle (sample_mintTokens (connected accepting_wallet unmined) signed_mint))
    = Some "64f0c0ffee".
Proof. repeat split; reflexivity. Qed.

(** The Reload button is the one caller of [reload]. *)
Example reload_button_calls_reload :
  count (MintData := unit) (Abi := unit) is_reload (trace onReloadClick) = 1%nat.
Proof. reflexivity. Qed.

(** The network check on Goerli as the required chain. *)
Example invalid_network_examples :
  isInvalidNetwork goerli None = false /\
  isInvalidNetwork goerli (Some goerli) = false /\
  isInvalidNetwork goerli (Some mainnet) = true.
Proof. repeat split; reflexivity. Qed.

(** ** The further properties on the sample data *)

Lemma switch_to_goerli_passes_gate :
  isInvalidNetwork goerli (Some goerli) = false /\
  WagmiConnectionManager goerli (Some goerli) (Some "0xAbC1") = Children.
Proof.
  apply (onSwitch_target_passes_gate goerli switching_hook 5 goerli (Some "0xAbC1")).
  - left. reflexivity.
  - reflexivity.
  - discriminate.
Defined.

Lemma upper_case_entry_ignored :
  render_row BigInt_decimal idle (<["0xABC1" := 7]> (nonces_of 2)) signed_mint =
  render_row BigInt_decimal idle (nonces_of 2) signed_mint.
Proof.
  apply (mixed_case_entry_is_never_read BigInt_decimal idle (nonces_of 2)
           signed_mint "0xABC1" 7).
  discriminate.
Defined.

Lemma unknown_recipient_row :
  render_table_row BigInt_decimal sample_formatUnits sample_humanFormattedDate
    idle (∅ : gmap string Z) malformed_mint =
    Normal {| amount_cell := "20";
              created_at_cell := "2023-07-01T00:00:00Z";
              status_tooltip := "";
              status_icon := false;
              flags_and_action :=
                {| row_isMintNotReady := true;
                   row_isMintCompleted := true;
                   row_action := NotAvailable |};
              mint_tx_hash_cell := None |}.
Proof.
  apply (row_of_unknown_recipient BigInt_decimal sample_formatUnits
           sample_humanFormattedDate idle ∅ malformed_mint).
  reflexivity.
Defined.

Lemma flags_of_later_mint_exclusive :
  true = true /\ false = true <-> narrow_bigint (Some 2) = None.
Proof.
  apply (flags_both_raised_iff BigInt_decimal (Some 2) following_mint true false);
    reflexivity.
Defined.

Lemma next_mint_button_pressable :
  can_be_pressed (row_action idle_next_row) = true <->
  is_current idle signed_mint = false /\
  exists n text,
    nonces_of 2 !! toLowerCase (Mint.recipient_address signed_mint) = Some n /\
    n <> 0 /\
    narrow_string (Mint.nonce signed_mint) = Some text /\
    BigInt_decimal text = Normal (n + 1) /\
    (Mint.status signed_mint = "signed" \/
     (Mint.status signed_mint = "confirmed" /\
      exists sigs,
        Mint.signatures signed_mint = Some sigs /\ (2 <= length sigs)%nat)).
Proof.
  apply (button_pressable_iff_next_mint BigInt_decimal idle (nonces_of 2)
           signed_mint idle_next_row).
  vm_compute. reflexivity.
Defined.

Lemma later_mint_tooltip :
  ("Please complete previous mints first" = "" <-> true = false) /\
  ("Please complete previous mints first" = "Please complete previous mints first" <->
   row_isMintNotReady later_row = true) /\
  ("Please complete previous mints first" =
     "Mint completed, please wait for validators to mark it as complete" <->
   row_isMintNotReady later_row = false /\ row_isMintCompleted later_row = true).
Proof.
  apply (tooltip_explains_disabled_button BigInt_decimal busy (nonces_of 2)
           following_mint later_row
           {| tooltip := "Please complete previous mints first";
              button_isLoading := false;
              isDisabled := true |}).
  - vm_compute. reflexivity.
  - reflexivity.
Defined.

Lemma malformed_nonce_throws :
  render_row BigInt_decimal idle (nonces_of 2) malformed_mint =
    Throw (SyntaxError "Cannot convert to a BigInt").
Proof.
  apply (row_throws_on_malformed_nonce BigInt_decimal idle (nonces_of 2)
           malformed_mint 2 "three").
  - vm_compute. reflexivity.
  - discriminate.
  - reflexivity.
  - reflexivity.
Defined.

Lemma confirmed_without_signatures_throws :
  exists msg,
    render_table_row BigInt_decimal sample_formatUnits sample_humanFormattedDate
      idle (nonces_of 2) confirmed_without_signatures =
      Throw (TypeError msg).
Proof.
  apply (row_throws_on_confirmed_without_signatures BigInt_decimal
           sample_formatUnits sample_humanFormattedDate idle
           (nonces_of 2) confirmed_without_signatures 2 (Some 3)
           20000000 "2023-07-01T00:00:00Z").
  - vm_compute. reflexivity.
  - discriminate.
  - reflexivity.
  - reflexivity.
  - reflexivity.
  - reflexivity.
  - reflexivity.
Defined.

Lemma table_of_two_mints :
  Forall2
    (fun mint row => render_row BigInt_decimal busy (nonces_of 2) mint = Normal row)
    [signed_mint; following_mint] [next_row; later_row].
Proof.
  apply (table_rows_follow_mints BigInt_decimal busy (nonces_of 2)
           [signed_mint; following_mint] [next_row; later_row]).
  vm_compute. reflexivity.
Defined.


Lemma table_of_two_mints_one_spinner :
  (length (List.filter shows_spinner [next_row; later_row]) <= 1)%nat.
Proof.
  apply (at_most_one_spinner BigInt_decimal busy (nonces_of 2)
           [signed_mint; following_mint] [next_row; later_row]).
  - repeat constructor; cbn; intros H;
      repeat (destruct H as [H|H]; try discriminate H); exact H.
  - vm_compute. reflexivity.
Defined.

Lemma reverted_receipt_reported :
  outcome (sample_mintTokens (connected accepting_wallet reverted) signed_mint)
    = Some (Normal tt) /\
  isLoading
    (state_after busy (sample_mintTokens (connected accepting_wallet reverted) signed_mint))
    = false /\
  currentMintId
    (state_after busy (sample_mintTokens (connected accepting_wallet reverted) signed_mint))
    = None /\
  refreshCount
    (state_after busy (sample_mintTokens (connected accepting_wallet reverted) signed_mint))
    = 4 /\
  count is_error_toast
    (trace (sample_mintTokens (connected accepting_wallet reverted) signed_mint))
    = 1%nat /\
  In (ConsoleError (Error "Transaction reverted"))
    (trace (sample_mintTokens (connected accepting_wallet reverted) signed_mint)) /\
  open_toasts
    (trace (sample_mintTokens (connected accepting_wallet reverted) signed_mint))
    = [toast_error_minting].
Proof.
  apply (mintTokens_receipt_failure tt "0xC0117011e4"
           (connected accepting_wallet reverted) signed_mint busy
           tt ["0x51"; "0x52"] "0xAbC1" accepting_wallet reverted "0x7e57"
           (Error "Transaction reverted"));
    reflexivity.
Defined.

Lemma sample_request_carries_the_mint :
  "mintWrappedPocket" = "mintWrappedPocket" /\
  "0xC0117011e4" = "0xC0117011e4" /\
  tt = tt /\
  narrow_string (account_address (connected accepting_wallet mined)) = Some "0xAbC1" /\
  Mint.data signed_mint = Some tt /\
  Mint.signatures signed_mint = Some ["0x51"; "0x52"].
Proof.
  apply (write_request_carries_the_mint tt "0xC0117011e4"
           (connected accepting_wallet mined) signed_mint
           (mint_request tt "0xC0117011e4" "0xAbC1" tt ["0x51"; "0x52"])).
  right. right. left. reflexivity.
Defined.

Lemma sample_receipt_awaited_for_returned_hash :
  (exists mint_data mint_signatures address wallet,
     Mint.data signed_mint = Some mint_data /\
     Mint.signatures signed_mint = Some mint_signatures /\
     narrow_string (account_address (connected accepting_wallet mined)) = Some address /\
     walletClient (connected accepting_wallet mined) = Some wallet /\
     writeContract wallet
       (mint_request tt "0xC0117011e4" address mint_data mint_signatures) =
       Fulfilled "0x7e57") /\
  In (Toast (toast_transaction_sent "0x7e57"))
     (trace (sample_mintTokens (connected accepting_wallet mined) signed_mint)).
Proof.
  apply (receipt_awaited_for_returned_hash tt "0xC0117011e4"
           (connected accepting_wallet mined) signed_mint "0x7e57").
  do 5 right. left. reflexivity.
Defined.


(** The first mint still waits for its receipt, the second has been
    minted: the first row has lost its spinner. *)
Example first_row_loses_spinner :
  completes (sample_mintTokens (connected accepting_wallet unmined) signed_mint)
    = false /\
  is_current
    (state_after
       (state_after idle
          (sample_mintTokens (connected accepting_wallet unmined) signed_mint))
       (sample_mintTokens (connected accepting_wallet mined) following_mint))
    signed_mint = false.
Proof. split; reflexivity. Qed.

Lemma no_spinner_after_mined_receipt :
  is_current
    (state_after busy (sample_mintTokens (connected accepting_wallet mined) signed_mint))
    signed_mint = false.
Proof.
  apply (no_spinner_after_completed_run tt "0xC0117011e4"
           (connected accepting_wallet mined) signed_mint signed_mint busy).
  - left. reflexivity.
  - reflexivity.
Defined.

Lemma busy_state_untouched_when_disconnected :
  state_after busy (sample_mintTokens disconnected signed_mint) = busy /\
  count is_write (trace (sample_mintTokens disconnected signed_mint)) = 0%nat /\
  completes (sample_mintTokens disconnected signed_mint) = true.
Proof.
  apply (state_untouched_outside_submission tt "0xC0117011e4"
           disconnected signed_mint busy).
  intros [].
Defined.
